(** * P2000-API: the rtlsdr module ([src/p2000/rtlsdr.py])

    A shallow embedding of the classes [Line], [Connection] and
    [AbstractReader], and of the subclass [MyReader] of
    [src/examples/reader.py], together with the parts of the Python
    runtime they lean on: [str.split], [str.strip], [str.rstrip],
    [str.join], list indexing and slicing, [bytes.decode], [print],
    [subprocess.Popen] and [subprocess.call].

    - A Python [str] is a list of Unicode code points ([N]).
    - A Python [bytes] is a list of [Byte.byte].
    - A raised exception is the [Err] branch of [result].
    - Objects with identity ([Connection]) live in a store indexed by
      references; the reader holds a reference, not a copy. *)

From Stdlib Require Import NArith ZArith Lia.
From Stdlib.Strings Require Import Byte Ascii String.
From stdpp Require Import gmap strings list.

Open Scope N_scope.

(** ** Exceptions and results *)

Inductive exn : Type :=
  | IndexError
  | TypeError
  | AttributeError
  | UnicodeDecodeError
  | UnicodeEncodeError
  | OSError
  | LookupError
  | ConnectionError (msg : string)
  | Raised (tag : string).   (* anything user code throws *)

Inductive result (A : Type) : Type :=
  | Ok (a : A)
  | Err (e : exn).
Arguments Ok {A} a.
Arguments Err {A} e.

#[global] Instance result_ret : MRet result := @Ok.
#[global] Instance result_bind : MBind result :=
  λ A B f m, match m with Ok a => f a | Err e => Err e end.
#[global] Instance result_fmap : FMap result :=
  λ A B f m, match m with Ok a => Ok (f a) | Err e => Err e end.

(** ** Python text and byte strings *)

Module Py.

Definition str := list N.
Definition bytes := list byte.

(** An ASCII literal of the source as a [str]. *)
Definition text (s : string) : str :=
  map N_of_ascii (list_ascii_of_string s).

(** [str.isspace] on one code point: the code points CPython's
    [_PyUnicode_IsWhitespace] accepts.  [str.split()] and [str.rstrip()]
    without arguments use this set. *)
Definition isspace (c : N) : bool :=
  ((0x09 <=? c) && (c <=? 0x0D)) || ((0x1C <=? c) && (c <=? 0x20))
  || (c =? 0x85) || (c =? 0xA0) || (c =? 0x1680)
  || ((0x2000 <=? c) && (c <=? 0x200A))
  || (c =? 0x2028) || (c =? 0x2029) || (c =? 0x202F) || (c =? 0x205F)
  || (c =? 0x3000).

(** [bytes.isspace] on one byte: space, tab, newline, return, vertical tab
    and form feed.  [bytes.split()] uses this set. *)
Definition bisspace (b : byte) : bool :=
  let n := Byte.to_N b in ((0x09 <=? n) && (n <=? 0x0D)) || (n =? 0x20).

(** [c in chars] for a code point and a [str]. *)
Definition mem (chars : str) (c : N) : bool := existsb (N.eqb c) chars.

(** [s.split()]: maximal runs of non-whitespace, left to right.  [cur] is
    the run being scanned, most recent element first. *)
Definition flush {A} (cur : list A) (k : list (list A)) : list (list A) :=
  match cur with [] => k | _ :: _ => rev cur :: k end.

Fixpoint split_from {A} (sp : A → bool) (cur : list A) (s : list A)
  : list (list A) :=
  match s with
  | [] => flush cur []
  | c :: s' =>
      if sp c then flush cur (split_from sp [] s')
      else split_from sp (c :: cur) s'
  end.

Definition split (s : str) : list str := split_from isspace [] s.
Definition bsplit (b : bytes) : list bytes := split_from bisspace [] b.

(** [sep.join(l)]. *)
Fixpoint join (sep : str) (l : list str) : str :=
  match l with
  | [] => []
  | x :: xs => match xs with [] => x | _ :: _ => x ++ sep ++ join sep xs end
  end.

(** Stripping: [lstrip_by p] drops the longest prefix whose code points
    satisfy [p]; [rstrip_by p] the longest such suffix. *)
Fixpoint lstrip_by (p : N → bool) (s : str) : str :=
  match s with
  | [] => []
  | c :: s' => if p c then lstrip_by p s' else s
  end.

Definition rstrip_by (p : N → bool) (s : str) : str :=
  rev (lstrip_by p (rev s)).

(** [s.strip(chars)] and [s.rstrip()]. *)
Definition strip (chars : str) (s : str) : str :=
  rstrip_by (mem chars) (lstrip_by (mem chars) s).

Definition rstrip (s : str) : str := rstrip_by isspace s.

(** [l[i]] for an integer [i]: negative indices count from the end, and an
    index outside the list raises [IndexError]. *)
Definition getitem {A} (l : list A) (i : Z) : result A :=
  let len := Z.of_nat (length l) in
  let j := if (i <? 0)%Z then (i + len)%Z else i in
  if ((j <? 0) || (len <=? j))%Z then Err IndexError
  else match l !! Z.to_nat j with
       | Some x => Ok x
       | None => Err IndexError
       end.

(** [l[start:stop]]: each bound is first made absolute (a negative bound
    counts from the end) and clamped into [0, len(l)]; the slice is empty
    when the bounds cross.  Slicing never raises. *)
Definition slice_bound (len i : Z) : Z :=
  if (i <? 0)%Z then Z.max (i + len) 0 else Z.min i len.

Definition slice {A} (l : list A) (start stop : Z) : list A :=
  let len := Z.of_nat (length l) in
  let lo := slice_bound len start in
  let hi := slice_bound len stop in
  take (Z.to_nat (hi - lo)) (drop (Z.to_nat lo) l).

(** [d.get(key, dflt)] on a keyword dictionary. *)
Definition get {V} (d : gmap string V) (key : string) (dflt : V) : V :=
  default dflt (d !! key).

(** [x in l] for a list [l]: some element equals [x]. *)
Definition contains (l : list str) (x : str) : bool :=
  bool_decide (x ∈ l).

End Py.

(** ** Codecs: [str.encode] and [bytes.decode]

    The reader's [encoding] attribute names a codec of the Python
    runtime, used with the default [errors='strict'].  Three codecs are
    embedded in full: UTF-8 (the default), ASCII and Latin-1.  Any other
    codec the runtime knows is [other], given by what its [encode] and
    [decode] compute; a name the runtime does not know is [unknown], and
    using it raises [LookupError]. *)

Module Codec.

Inductive Encoding : Type :=
  | utf_8
  | ascii
  | latin_1
  | other (enc : Py.str → result Py.bytes) (dec : Py.bytes → result Py.str)
  | unknown (name : string).

(** The three codecs embedded in full. *)
Definition builtin (e : Encoding) : Prop := e = utf_8 ∨ e = ascii ∨ e = latin_1.

Definition byte_of_N (n : N) : byte := default x00 (Byte.of_N n).

(** One code point to its UTF-8 bytes.  Surrogates have no encoding. *)
Definition utf8_encode_cp (c : N) : result Py.bytes :=
  if c <? 0x80 then Ok [byte_of_N c]
  else if c <? 0x800 then
    Ok [byte_of_N (0xC0 + c / 0x40); byte_of_N (0x80 + c mod 0x40)]
  else if c <? 0x10000 then
    if (0xD800 <=? c) && (c <=? 0xDFFF) then Err UnicodeEncodeError
    else Ok [byte_of_N (0xE0 + c / 0x1000);
             byte_of_N (0x80 + (c / 0x40) mod 0x40);
             byte_of_N (0x80 + c mod 0x40)]
  else if c <? 0x110000 then
    Ok [byte_of_N (0xF0 + c / 0x40000);
        byte_of_N (0x80 + (c / 0x1000) mod 0x40);
        byte_of_N (0x80 + (c / 0x40) mod 0x40);
        byte_of_N (0x80 + c mod 0x40)]
  else Err UnicodeEncodeError.

Definition ascii_encode_cp (c : N) : result Py.bytes :=
  if c <? 0x80 then Ok [byte_of_N c] else Err UnicodeEncodeError.

Definition latin1_encode_cp (c : N) : result Py.bytes :=
  if c <? 0x100 then Ok [byte_of_N c] else Err UnicodeEncodeError.

Fixpoint encode_with (f : N → result Py.bytes) (s : Py.str) : result Py.bytes :=
  match s with
  | [] => Ok []
  | c :: s' => bs ← f c; rest ← encode_with f s'; Ok (bs ++ rest)
  end.

(** [s.encode(enc)]. *)
Definition encode (enc : Encoding) (s : Py.str) : result Py.bytes :=
  match enc with
  | utf_8 => encode_with utf8_encode_cp s
  | ascii => encode_with ascii_encode_cp s
  | latin_1 => encode_with latin1_encode_cp s
  | other f _ => f s
  | unknown _ => Err LookupError
  end.

(** A UTF-8 continuation byte. *)
Definition cont (n : N) : bool := (0x80 <=? n) && (n <=? 0xBF).

(** The strict UTF-8 decoder: well-formed sequences only (no overlong
    forms, no surrogates, nothing above U+10FFFF). *)
Fixpoint utf8_decode (bs : Py.bytes) : result Py.str :=
  match bs with
  | [] => Ok []
  | b0 :: r0 =>
      let n0 := Byte.to_N b0 in
      if n0 <? 0x80 then cons n0 <$> utf8_decode r0
      else if (0xC2 <=? n0) && (n0 <=? 0xDF) then
        match r0 with
        | b1 :: r1 =>
            let n1 := Byte.to_N b1 in
            if cont n1
            then cons ((n0 - 0xC0) * 0x40 + (n1 - 0x80)) <$> utf8_decode r1
            else Err UnicodeDecodeError
        | _ => Err UnicodeDecodeError
        end
      else if (0xE0 <=? n0) && (n0 <=? 0xEF) then
        match r0 with
        | b1 :: b2 :: r2 =>
            let n1 := Byte.to_N b1 in
            let n2 := Byte.to_N b2 in
            let lo := if n0 =? 0xE0 then 0xA0 else 0x80 in
            let hi := if n0 =? 0xED then 0x9F else 0xBF in
            if (lo <=? n1) && (n1 <=? hi) && cont n2
            then cons ((n0 - 0xE0) * 0x1000 + (n1 - 0x80) * 0x40 + (n2 - 0x80))
                   <$> utf8_decode r2
            else Err UnicodeDecodeError
        | _ => Err UnicodeDecodeError
        end
      else if (0xF0 <=? n0) && (n0 <=? 0xF4) then
        match r0 with
        | b1 :: b2 :: b3 :: r3 =>
            let n1 := Byte.to_N b1 in
            let n2 := Byte.to_N b2 in
            let n3 := Byte.to_N b3 in
            let lo := if n0 =? 0xF0 then 0x90 else 0x80 in
            let hi := if n0 =? 0xF4 then 0x8F else 0xBF in
            if (lo <=? n1) && (n1 <=? hi) && cont n2 && cont n3
            then cons ((n0 - 0xF0) * 0x40000 + (n1 - 0x80) * 0x1000
                       + (n2 - 0x80) * 0x40 + (n3 - 0x80))
                   <$> utf8_decode r3
            else Err UnicodeDecodeError
        | _ => Err UnicodeDecodeError
        end
      else Err UnicodeDecodeError
  end.

Fixpoint ascii_decode (bs : Py.bytes) : result Py.str :=
  match bs with
  | [] => Ok []
  | b :: r =>
      if Byte.to_N b <? 0x80 then cons (Byte.to_N b) <$> ascii_decode r
      else Err UnicodeDecodeError
  end.

Definition latin1_decode (bs : Py.bytes) : result Py.str :=
  Ok (map Byte.to_N bs).

(** [b.decode(enc)]. *)
Definition decode (enc : Encoding) (b : Py.bytes) : result Py.str :=
  match enc with
  | utf_8 => utf8_decode b
  | ascii => ascii_decode b
  | latin_1 => latin1_decode b
  | other _ g => g b
  | unknown _ => Err LookupError
  end.

End Codec.

(** ** class Line *)

Record Line : Type := mkLine {
  line : Py.str;
  timestamp : Py.str;
  monitorcode : Py.str;
  message : Py.str
}.

(** What a caller may hand over as the "line": decoded text, a raw byte
    line as read from the pipe, or an already built [Line]. *)
Inductive arg : Type :=
  | Text (s : Py.str)
  | Raw (b : Py.bytes)
  | Rec (l : Line).

(** [Line.__init__(self, line, **kwargs)] on a text line.  The second
    argument of each [kwargs.get] is evaluated before the lookup, so
    [words[5]] is read whatever [kwargs] holds. *)
Definition Line_init_text (ln : Py.str) (kwargs : gmap string Py.str)
  : result Line :=
  let words := Py.split ln in
  let ts := Py.get kwargs "timestamp"
              (Py.join (Py.text " ") (Py.slice words 1 2)) in
  tok ← Py.getitem words 5;
  let mc := Py.get kwargs "monitorcode" (Py.strip (Py.text "[]") tok) in
  let msg := Py.get kwargs "message"
               (Py.join (Py.text " ") (Py.slice words 6 (-1))) in
  Ok (mkLine ln ts mc msg).

(** The same statements on a byte line: [" ".join] over a non-empty list
    of [bytes] items is a [TypeError], and so is [bytes.strip] with the
    [str] argument ["[]"]. *)
Definition Line_init_bytes (ln : Py.bytes) : result Line :=
  let words := Py.bsplit ln in
  _ ← match Py.slice words 1 2 with
      | [] => Ok ()
      | _ :: _ => Err TypeError
      end;
  _ ← Py.getitem words 5;
  Err TypeError.

Definition Line_init (ln : arg) (kwargs : gmap string Py.str) : result Line :=
  match ln with
  | Text s => Line_init_text s kwargs
  | Raw b => Line_init_bytes b
  | Rec _ => Err AttributeError          (* a Line has no split() *)
  end.

(** ** The process environment *)

Definition Cmd := list string.

(** The read end of a pipe, as the reader sees it: the lines it will
    yield, then either end of file ([None]) or a fault. *)
Record Stream : Type := mkStream {
  st_lines : list Py.bytes;
  st_fault : option exn
}.

(** A [Popen] object. *)
Record Process : Type := mkProcess {
  p_args : Cmd;
  p_stdin : option Stream;
  p_stdout : Stream
}.

Inductive event : Type :=
  | EvPopen (cmd : Cmd) (started : bool)
  | EvCall (cmd : Cmd)
  | EvPrint (s : Py.str).

(** ** class Connection *)

Record Connection : Type := mkConnection {
  rtlfm_process : option Process;
  multi_process : option Process;
  stdout : option Stream
}.

Definition COMMAND_RTLFM : Cmd :=
  ["rtl_fm"; "-f"; "169.65M"; "-M"; "fm"; "-s"; "22050"; "-p"; "83"; "-g"; "30"]%string.
Definition COMMAND_MULTI : Cmd :=
  ["multimon-ng"; "-q"; "-a"; "FLEX"; "-t"; "raw"; "/dev/stdin"]%string.
Definition COMMAND_KILL : Cmd := ["killall"; "-9"; "rtl_fm"]%string.

(** [Connection.__init__]. *)
Definition Connection_init : Connection := mkConnection None None None.

(** ** class AbstractReader: the attributes *)

Definition ref := positive.

Record Reader : Type := mkReader {
  blacklist_messages : list Py.str;
  blacklist_monitorcodes : list Py.str;
  encoding : Codec.Encoding;
  connection : option ref
}.

(** [AbstractReader.__init__]: the two lists come from the loaded
    configuration, the encoding from [kwargs] (UTF-8 by default). *)
Definition AbstractReader_init (messages monitorcodes : list Py.str)
    (kwargs : gmap string Codec.Encoding) : Reader :=
  mkReader messages monitorcodes (Py.get kwargs "encoding" Codec.utf_8) None.

(** ** The world: one reader, the connection objects, the environment

    - [objects] holds the [Connection] objects by reference; a reference
      absent from the map denotes an object still in the state
      [Connection.__init__] left it in.
    - [pending] is what the operating system will answer to the coming
      [Popen] calls, in order: the output pipe of the started process, or
      the error raised.  Past the end of the list every spawn fails.
    - [trace] records what was done, oldest first: the spawn attempts,
      the commands that ran, the texts that were printed.
    - [calls] is what the operating system will answer to the coming
      [subprocess.call]s, in order: the exit status of the command, or
      the error raised when the command cannot be started.  Past the end
      of the list no command can be started.
    - [console] is what the terminal will answer to the coming [print]s,
      in order: [None] when the text is written, or the error raised.
      Past the end of the list every write fails. *)
Record World : Type := mkWorld {
  reader : Reader;
  objects : gmap ref Connection;
  pending : list (result Stream);
  trace : list event;
  calls : list (result Z);
  console : list (option exn)
}.

Definition M (A : Type) : Type := World → result A * World.

Definition ret {A} (a : A) : M A := λ w, (Ok a, w).
Definition raise {A} (e : exn) : M A := λ w, (Err e, w).
Definition bind {A B} (m : M A) (f : A → M B) : M B :=
  λ w, match m w with
       | (Ok a, w') => f a w'
       | (Err e, w') => (Err e, w')
       end.
Definition lift {A} (r : result A) : M A := λ w, (r, w).

(** [try: body finally: fin].  An exception of [fin] replaces the outcome
    of [body]; otherwise the outcome of [body] stands. *)
Definition try_finally {A} (body : M A) (fin : M unit) : M A :=
  λ w, match body w with
       | (r, w1) => match fin w1 with
                    | (Ok _, w2) => (r, w2)
                    | (Err e, w2) => (Err e, w2)
                    end
       end.

Declare Scope M_scope.
Delimit Scope M_scope with M.
Notation "x <- m ;; k" := (bind m (λ x, k))
  (at level 100, m at next level, right associativity) : M_scope.
Notation "m ;; k" := (bind m (λ _, k))
  (at level 100, right associativity) : M_scope.
Open Scope M_scope.

Definition self : M Reader := λ w, (Ok (reader w), w).

Definition set_connection (c : option ref) : M unit :=
  λ w, let r := reader w in
       (Ok (),
        mkWorld (mkReader (blacklist_messages r) (blacklist_monitorcodes r)
                          (encoding r) c)
                (objects w) (pending w) (trace w) (calls w) (console w)).

(** The connection object a reference denotes. *)
Definition object_at (c : ref) (w : World) : Connection :=
  default Connection_init (objects w !! c).

Definition deref (c : ref) : M Connection := λ w, (Ok (object_at c w), w).

Definition assign (c : ref) (f : Connection → Connection) : M unit :=
  λ w, (Ok (),
        mkWorld (reader w) (<[c := f (object_at c w)]> (objects w))
                (pending w) (trace w) (calls w) (console w)).

(** [subprocess.Popen(cmd, stdin=..., stdout=PIPE)]. *)
Definition Popen (cmd : Cmd) (stdin : option Stream) : M Process :=
  λ w, match pending w with
       | Ok out :: rest =>
           (Ok (mkProcess cmd stdin out),
            mkWorld (reader w) (objects w) rest (trace w ++ [EvPopen cmd true])
                    (calls w) (console w))
       | Err e :: rest =>
           (Err e,
            mkWorld (reader w) (objects w) rest (trace w ++ [EvPopen cmd false])
                    (calls w) (console w))
       | [] =>
           (Err OSError,
            mkWorld (reader w) (objects w) [] (trace w ++ [EvPopen cmd false])
                    (calls w) (console w))
       end.

(** [subprocess.call(cmd)]: runs the command to completion and returns
    its exit status; when the command cannot be started (it is not
    installed, say) the error is raised and nothing has run. *)
Definition call (cmd : Cmd) : M Z :=
  λ w, match calls w with
       | Ok status :: rest =>
           (Ok status,
            mkWorld (reader w) (objects w) (pending w) (trace w ++ [EvCall cmd])
                    rest (console w))
       | Err e :: rest =>
           (Err e,
            mkWorld (reader w) (objects w) (pending w) (trace w) rest (console w))
       | [] => (Err OSError, w)
       end.

(** ** class Connection: the methods *)

(** [Connection.kill(self)]: the exit status of the command is dropped. *)
Definition Connection_kill (c : ref) : M unit := call COMMAND_KILL;; ret ().

(** [Connection.open(self, **kwargs)]. *)
Definition Connection_open (c : ref) (kwargs : gmap string bool) : M unit :=
  (if Py.get kwargs "kill" false then Connection_kill c else ret ());;
  p <- Popen COMMAND_RTLFM None;;
  assign c (λ k, mkConnection (Some p) (multi_process k) (stdout k));;
  k <- deref c;;
  match rtlfm_process k with
  | None => raise AttributeError
  | Some p1 =>
      q <- Popen COMMAND_MULTI (Some (p_stdout p1));;
      assign c (λ k, mkConnection (rtlfm_process k) (Some q) (stdout k));;
      k <- deref c;;
      match multi_process k with
      | None => raise AttributeError
      | Some q1 =>
          assign c (λ k, mkConnection (rtlfm_process k) (multi_process k)
                                      (Some (p_stdout q1)))
      end
  end.

(** ** class AbstractReader: the methods *)

(** [decode_line(self, line, strip=True)].  Only a byte line has a
    [decode] method. *)
Definition decode_line (ln : arg) (strip : bool) : M Py.str :=
  match ln with
  | Raw b =>
      r <- self;;
      lift (decoded ← Codec.decode (encoding r) b;
            Ok (if strip then Py.rstrip decoded else decoded))
  | Text _ | Rec _ => raise AttributeError
  end.

(** [create_line(self, line, **kwargs)]. *)
Definition create_line (ln : arg) (kwargs : gmap string bool) : M Line :=
  let strip := Py.get kwargs "strip" true in
  let decode := Py.get kwargs "decode" true in
  if decode
  then (s <- decode_line ln strip;; lift (Line_init (Text s) ∅))
  else lift (Line_init ln ∅).

(** [is_monitorcode_blacklisted(self, line)]. *)
Definition is_monitorcode_blacklisted (ln : arg) : M bool :=
  match ln with
  | Rec l =>
      r <- self;; ret (Py.contains (blacklist_monitorcodes r) (monitorcode l))
  | _ =>
      l <- create_line ln ∅;;
      r <- self;; ret (Py.contains (blacklist_monitorcodes r) (monitorcode l))
  end.

(** [is_message_blacklisted(self, line)]. *)
Definition is_message_blacklisted (ln : arg) : M bool :=
  match ln with
  | Rec l =>
      r <- self;; ret (Py.contains (blacklist_messages r) (message l))
  | _ =>
      l <- create_line ln ∅;;
      r <- self;; ret (Py.contains (blacklist_messages r) (message l))
  end.

(** [is_line_blacklisted(self, line)]: Python's [or] evaluates its right
    operand only when the left one is false. *)
Definition is_line_blacklisted (ln : arg) : M bool :=
  b <- is_monitorcode_blacklisted ln;;
  if b then ret true else is_message_blacklisted ln.

(** [detach(self)]. *)
Definition detach : M unit :=
  r <- self;;
  match connection r with
  | Some c => Connection_kill c;; set_connection None
  | None => ret ()
  end.

Section Reader.

(** The abstract method [act(self, line)], supplied by the subclass.  It
    runs with the whole world at hand: it may call any method of the
    reader, and it may raise. *)
Variable act : Py.bytes → M unit.

(** [for line in stream: self.act(line)]. *)
Fixpoint for_each (lines : list Py.bytes) (fault : option exn) : M unit :=
  match lines with
  | [] => match fault with None => ret () | Some e => raise e end
  | ln :: rest => act ln;; for_each rest fault
  end.

(** The [try] block of [__setup_connection__]. *)
Definition setup_body (c : ref) : M unit :=
  set_connection (Some c);;
  Connection_open c ∅;;
  r <- self;;
  match connection r with
  | None => raise AttributeError       (* None has no stdout *)
  | Some c1 =>
      k <- deref c1;;
      match stdout k with
      | None => raise TypeError        (* None is not iterable *)
      | Some s => for_each (st_lines s) (st_fault s)
      end
  end.

(** [__setup_connection__(self, connection)]. *)
Definition __setup_connection__ (c : ref) : M unit :=
  try_finally (setup_body c) detach.

(** [attach(self, connection)]. *)
Definition attach (c : ref) : M unit :=
  r <- self;;
  match connection r with
  | None => __setup_connection__ c
  | Some c0 =>
      k <- deref c0;;
      match stdout k with
      | None => __setup_connection__ c
      | Some _ => raise (ConnectionError "Connection is already active.")
      end
  end.

End Reader.

(** * Vocabulary of the statements, and sample data *)

(** What "the surrounding characters removed" means, said without the
    stripping functions: [r] sits inside [t] between a prefix and a
    suffix made of characters satisfying [P] only, and [r] neither
    starts nor ends with such a character. *)
Definition trimmed (P : N → Prop) (r : Py.str) : Prop :=
  (∀ c, head r = Some c → ¬ P c) ∧ (∀ c, last r = Some c → ¬ P c).

Definition stripped_of (P : N → Prop) (t r : Py.str) : Prop :=
  ∃ pre post, t = pre ++ r ++ post ∧ Forall P pre ∧ Forall P post ∧ trimmed P r.

Definition bracket (c : N) : Prop := c = 0x5B ∨ c = 0x5D.

(** "Tokens from index [lo] up to but excluding index [hi]". *)
Definition tokens_between {A} (lo hi : nat) (l : list A) : list A :=
  take (hi - lo) (drop lo l).

Definition example_text : Py.str :=
  Py.text "2024-01-01 12:00:00 X Y Z [A12] Hello World NNNN".

(** The byte line [b"2024-01-01 12:00:00 X Y Z [A12] Hello World NNNN\n"]. *)
Definition example_raw : Py.bytes :=
  list_byte_of_string "2024-01-01 12:00:00 X Y Z [A12] Hello World NNNN" ++ [x0a].

(** A freshly constructed reader with an empty blacklist, nothing else
    around it. *)
Definition fresh_world : World :=
  mkWorld (AbstractReader_init [] [] ∅) ∅ [] [] [] [].

Definition all_overrides : gmap string Py.str :=
  <["timestamp" := Py.text "12:00:00"]>
    (<["monitorcode" := Py.text "A12"]>
       (<["message" := Py.text "Hello"]> ∅)).

(** A reader in the middle of a read loop: it holds connection 1, whose
    two processes run and whose [stdout] is set. *)
Definition open_connection : Connection :=
  let audio := mkStream [] None in
  let lines := mkStream [example_raw] None in
  mkConnection (Some (mkProcess COMMAND_RTLFM None audio))
               (Some (mkProcess COMMAND_MULTI (Some audio) lines))
               (Some lines).

Definition active_world : World :=
  mkWorld (mkReader [] [] Codec.utf_8 (Some 1%positive))
          {[ 1%positive := open_connection ]} [] [] [] [].

(** A caller driving connections by hand: any sequence of [open] and
    [kill] calls, on any connections.  A call that raises is caught by
    the caller, who goes on from the world the call left. *)
Inductive conn_call : Type :=
  | CallOpen (c : ref) (kwargs : gmap string bool)
  | CallKill (c : ref).

Definition run_call (x : conn_call) : M unit :=
  match x with
  | CallOpen c kwargs => Connection_open c kwargs
  | CallKill c => Connection_kill c
  end.

Fixpoint run_calls (xs : list conn_call) (w : World) : World :=
  match xs with
  | [] => w
  | x :: xs' => run_calls xs' (snd (run_call x w))
  end.

(** A fresh reader and an operating system ready to start the two
    processes, the second of which will print [lines] and exit, and to
    run the kill command once. *)
Definition spawn_world (lines : list Py.bytes) (fault : option exn) : World :=
  mkWorld (AbstractReader_init [] [] ∅) ∅
          [Ok (mkStream [] None); Ok (mkStream lines fault)] []
          [Ok 0%Z] [].

(** The same with no kill command installed. *)
Definition spawn_world_no_kill (lines : list Py.bytes) (fault : option exn)
  : World :=
  mkWorld (AbstractReader_init [] [] ∅) ∅
          [Ok (mkStream [] None); Ok (mkStream lines fault)] [] [] [].

(** A byte line with two tokens only. *)
Definition short_raw : Py.bytes := list_byte_of_string "too short" ++ [x0a].

(** A subclass whose [act] builds the [Line] and does nothing with it. *)
Definition act_parse : Py.bytes → M unit :=
  λ raw, create_line (Raw raw) ∅;; ret ().

(** A subclass that ignores every line, one that rejects blank lines (a
    line feed and nothing else), and one that tries to attach a second
    connection from inside [act]. *)
Definition act_quiet : Py.bytes → M unit := λ _, ret ().

Definition act_fussy : Py.bytes → M unit :=
  λ ln, match ln with
        | [x0a] => raise (Raised "blank line")
        | _ => ret ()
        end.

Definition act_reattach : Py.bytes → M unit :=
  λ _, attach act_quiet 2%positive.

(** The kill command can be started: the operating system's next answer
    to a [call] is an exit status. *)
Definition kill_runs (w : World) : Prop :=
  ∃ status rest, calls w = Ok status :: rest.

(** [detach] in this world will not fail: there is no connection to
    kill, or the kill command can be started. *)
Definition kill_ready (w : World) : Prop :=
  connection (reader w) = None ∨ kill_runs w.

(** [open] with these keyword arguments will not fail in its kill: none
    is asked for, or the kill command can be started. *)
Definition kill_granted (kwargs : gmap string bool) (w : World) : Prop :=
  Py.get kwargs "kill" false = false ∨ kill_runs w.

(** A codec that does what [shift_jis] does on ASCII and on the yen sign:
    U+00A5 is encoded as the byte 0x5C, which decodes to U+005C. *)
Definition yen_codec : Codec.Encoding :=
  Codec.other
    (Codec.encode_with
       (λ c, if c =? 0xA5 then Ok [x5c] else Codec.ascii_encode_cp c))
    Codec.ascii_decode.

Definition returned {A} (r : result A) : bool :=
  match r with Ok _ => true | Err _ => false end.

(** [opened c xs w]: among the calls [xs], run from [w], some [open] on
    connection [c] returned normally, that is, started both processes. *)
Fixpoint opened (c : ref) (xs : list conn_call) (w : World) : bool :=
  match xs with
  | [] => false
  | x :: xs' =>
      match x with
      | CallOpen c' _ => bool_decide (c' = c) && returned (fst (run_call x w))
      | CallKill _ => false
      end
      || opened c xs' (snd (run_call x w))
  end.

(** The process handles and the stream handle of a connection agree: the
    stream is the output of the decode process, and a decode process is
    never there without a capture process. *)
Definition handles_agree (k : Connection) : Prop :=
  stdout k = p_stdout <$> multi_process k
  ∧ (is_Some (multi_process k) → is_Some (rtlfm_process k)).

(** Whitespace, as a property of code points. *)
Definition whitespace (c : N) : Prop := Py.isspace c = true.

(** [r] is [s] with its trailing characters satisfying [P] removed. *)
Definition rstripped_of (P : N → Prop) (s r : Py.str) : Prop :=
  ∃ post, s = r ++ post ∧ Forall P post ∧ ∀ c, last r = Some c → ¬ P c.

(** "The text minus its trailing newline": one final line feed dropped,
    nothing else. *)
Definition chomp (s : Py.str) : Py.str :=
  match last s with
  | Some c => if c =? 0x0A then removelast s else s
  | None => s
  end.

(** ** class Line: the string form *)

(** [Line.__str__(self)]: the format string
    ["@line = {0}\n\t@message = {1}\n\t@timestamp = {2}\n\t@monitorcode = {3}"]
    with the four attributes, all of them [str], put in place. *)
Definition Line_str (l : Line) : Py.str :=
  Py.text "@line = " ++ line l
  ++ [0x0A; 0x09] ++ Py.text "@message = " ++ message l
  ++ [0x0A; 0x09] ++ Py.text "@timestamp = " ++ timestamp l
  ++ [0x0A; 0x09] ++ Py.text "@monitorcode = " ++ monitorcode l.

(** ** examples/reader.py: class MyReader *)

(** [print(s)]: the text is written to the terminal, or the write
    raises (the terminal cannot encode the text, the pipe is closed) and
    nothing is shown. *)
Definition print (s : Py.str) : M unit :=
  λ w, match console w with
       | None :: rest =>
           (Ok (),
            mkWorld (reader w) (objects w) (pending w) (trace w ++ [EvPrint s])
                    (calls w) rest)
       | Some e :: rest =>
           (Err e,
            mkWorld (reader w) (objects w) (pending w) (trace w) (calls w) rest)
       | [] => (Err OSError, w)
       end.

(** [MyReader.act(self, raw)]. *)
Definition MyReader_act (raw : Py.bytes) : M unit :=
  l <- create_line (Raw raw) ∅;;
  b <- is_line_blacklisted (Rec l);;
  if b then print (Py.text "== LINE IS BLACKLISTED ==")
  else print (Line_str l).

(** ** More vocabulary *)

(** A token: not empty, no whitespace in it. *)
Definition token (t : Py.str) : Prop :=
  t ≠ [] ∧ Forall (λ c, Py.isspace c = false) t.

(** [l] with its [line] attribute replaced. *)
Definition with_line (s : Py.str) (l : Line) : Line :=
  mkLine s (timestamp l) (monitorcode l) (message l).

(** The reader holds a connection whose stream handle is set. *)
Definition active (w : World) : bool :=
  match connection (reader w) with
  | Some c0 => bool_decide (is_Some (stdout (object_at c0 w)))
  | None => false
  end.

(** A byte line that decodes, under the reader's encoding, to a text with
    at least six tokens. *)
Definition well_formed (enc : Codec.Encoding) (raw : Py.bytes) : Prop :=
  ∃ s, Codec.decode enc raw = Ok s ∧ (6 ≤ length (Py.split s))%nat.

(** No line feed in the attributes that [__str__] prints before the
    last one. *)
Definition one_line_fields (l : Line) : Prop :=
  (0x0A ∉ line l) ∧ (0x0A ∉ message l) ∧ (0x0A ∉ timestamp l).

(** What [MyReader.act] prints for a [Line]. *)
Definition report (r : Reader) (l : Line) : Py.str :=
  if Py.contains (blacklist_monitorcodes r) (monitorcode l)
     || Py.contains (blacklist_messages r) (message l)
  then Py.text "== LINE IS BLACKLISTED =="
  else Line_str l.

(** What [MyReader.act] prints for a byte line, when the line can be
    built (nothing to show otherwise). *)
Definition shown (r : Reader) (raw : Py.bytes) : Py.str :=
  match Codec.decode (encoding r) raw with
  | Ok s => match Line_init_text (Py.rstrip s) ∅ with
            | Ok l => report r l
            | Err _ => []
            end
  | Err _ => []
  end.

(** The world [__setup_connection__] leaves behind after a loop that ran
    on connection [c], started from [w] with the two processes answering
    [out1] and [out2], printed [texts], and ended with a kill command
    that ran; [cs] and [con] are the answers left over. *)
Definition after_loop (c : ref) (w : World) (out1 out2 : Stream)
    (rest : list (result Stream)) (texts : list Py.str)
    (cs : list (result Z)) (con : list (option exn)) : World :=
  mkWorld (mkReader (blacklist_messages (reader w))
                    (blacklist_monitorcodes (reader w))
                    (encoding (reader w)) None)
          (<[c := mkConnection
                    (Some (mkProcess COMMAND_RTLFM None out1))
                    (Some (mkProcess COMMAND_MULTI (Some out1) out2))
                    (Some out2)]> (objects w))
          rest
          (trace w
           ++ [EvPopen COMMAND_RTLFM true; EvPopen COMMAND_MULTI true]
           ++ map EvPrint texts ++ [EvCall COMMAND_KILL])
          cs con.

(** * Properties *)

(** ** Slicing, indexing and stripping *)

Section ListFacts.
Context {A : Type}.
Implicit Types l : list A.

Lemma getitem_lookup l (i : nat) x :
  l !! i = Some x → Py.getitem l (Z.of_nat i) = Ok x.
Proof.
  intros H. pose proof (lookup_lt_Some _ _ _ H) as Hlt.
  unfold Py.getitem.
  destruct (Z.ltb_spec (Z.of_nat i) 0); [lia|].
  destruct (Z.ltb_spec (Z.of_nat i) 0); [lia|].
  destruct (Z.leb_spec (Z.of_nat (length l)) (Z.of_nat i)); [lia|].
  simpl. rewrite Nat2Z.id, H. reflexivity.
Qed.

Lemma getitem_short l (i : nat) :
  (length l ≤ i)%nat → Py.getitem l (Z.of_nat i) = Err IndexError.
Proof.
  intros H. unfold Py.getitem.
  destruct (Z.ltb_spec (Z.of_nat i) 0); [lia|].
  destruct (Z.ltb_spec (Z.of_nat i) 0); [lia|].
  destruct (Z.leb_spec (Z.of_nat (length l)) (Z.of_nat i)); [|lia].
  reflexivity.
Qed.

(** A slice with non-negative bounds inside the list. *)
Lemma slice_inside l (lo hi : nat) :
  (lo ≤ hi ≤ length l)%nat →
  Py.slice l (Z.of_nat lo) (Z.of_nat hi) = take (hi - lo) (drop lo l).
Proof.
  intros H. unfold Py.slice, Py.slice_bound.
  destruct (Z.ltb_spec (Z.of_nat lo) 0); [lia|].
  destruct (Z.ltb_spec (Z.of_nat hi) 0); [lia|].
  rewrite !Z.min_l by lia.
  rewrite Nat2Z.id. f_equal. lia.
Qed.

(** [l[lo:-1]] on a list long enough: everything from [lo] on, the last
    element left out. *)
Lemma slice_to_last l (lo : nat) :
  (lo < length l)%nat →
  Py.slice l (Z.of_nat lo) (-1) = take (length l - 1 - lo) (drop lo l).
Proof.
  intros H. unfold Py.slice, Py.slice_bound.
  destruct (Z.ltb_spec (Z.of_nat lo) 0); [lia|].
  destruct (Z.ltb_spec (-1) 0); [|lia].
  rewrite Z.min_l, Z.max_l by lia.
  rewrite Nat2Z.id. f_equal. lia.
Qed.

Lemma slice_single l (i : nat) x :
  l !! i = Some x → Py.slice l (Z.of_nat i) (Z.of_nat (S i)) = [x].
Proof.
  intros H. pose proof (lookup_lt_Some _ _ _ H) as Hlt.
  rewrite slice_inside by lia.
  replace (S i - i)%nat with 1%nat by lia.
  apply list_eq. intros [|j].
  - rewrite lookup_take_lt by lia. rewrite lookup_drop.
    rewrite Nat.add_0_r. exact H.
  - rewrite lookup_take_ge by lia. reflexivity.
Qed.

End ListFacts.

Lemma mem_brackets c : Py.mem (Py.text "[]") c = true ↔ bracket c.
Proof.
  unfold bracket. change (Py.text "[]") with [0x5B; 0x5D]. cbn.
  destruct (N.eqb_spec c 91), (N.eqb_spec c 93); cbn; split; intros H;
    try discriminate; try reflexivity; try (destruct H; contradiction); auto.
Qed.

Lemma stripped_of_iff (P Q : N → Prop) t r :
  (∀ c, P c ↔ Q c) → stripped_of P t r → stripped_of Q t r.
Proof.
  intros HPQ (pre & post & Heq & Hpre & Hpost & Hhd & Hlast).
  exists pre, post. split; [assumption|].
  split; [eapply Forall_impl; [exact Hpre | intros; apply HPQ; assumption]|].
  split; [eapply Forall_impl; [exact Hpost | intros; apply HPQ; assumption]|].
  split; intros c Hc HQ; [apply (Hhd c Hc) | apply (Hlast c Hc)]; apply HPQ; exact HQ.
Qed.

Lemma lstrip_by_spec p s :
  ∃ pre, s = pre ++ Py.lstrip_by p s ∧ Forall (λ c, p c = true) pre
         ∧ ∀ c, head (Py.lstrip_by p s) = Some c → p c = false.
Proof.
  induction s as [|c s IH]; cbn.
  - exists []. split; [reflexivity|]. split; [constructor|]. intros ? [=].
  - destruct (p c) eqn:E.
    + destruct IH as (pre & Heq & Hpre & Hhd).
      exists (c :: pre). split; [cbn; congruence|]. split; [constructor; assumption|].
      exact Hhd.
    + exists []. split; [reflexivity|]. split; [constructor|].
      cbn. intros ? [= <-]. exact E.
Qed.

Lemma rstrip_by_spec p s :
  ∃ post, s = Py.rstrip_by p s ++ post ∧ Forall (λ c, p c = true) post
          ∧ ∀ c, last (Py.rstrip_by p s) = Some c → p c = false.
Proof.
  unfold Py.rstrip_by.
  destruct (lstrip_by_spec p (rev s)) as (pre & Heq & Hpre & Hhd).
  exists (rev pre). split; [|split].
  - rewrite <- rev_app_distr, <- Heq, rev_involutive. reflexivity.
  - apply Forall_forall. intros c Hc. rewrite Forall_forall in Hpre.
    apply Hpre. apply list_elem_of_In. apply in_rev. apply list_elem_of_In. exact Hc.
  - intros c Hc. apply Hhd.
    apply last_Some in Hc as [l' Hl'].
    apply (f_equal (@rev N)) in Hl'.
    rewrite rev_involutive, rev_app_distr in Hl'. rewrite Hl'. reflexivity.
Qed.

Lemma strip_spec chars t :
  stripped_of (λ c, Py.mem chars c = true) t (Py.strip chars t).
Proof.
  unfold Py.strip.
  destruct (lstrip_by_spec (Py.mem chars) t) as (pre & Heq & Hpre & Hhd).
  destruct (rstrip_by_spec (Py.mem chars) (Py.lstrip_by (Py.mem chars) t))
    as (post & Heq' & Hpost & Hlast).
  exists pre, post. split; [congruence|]. split; [assumption|]. split; [assumption|].
  split.
  - intros c Hc. rewrite (Hhd c); [discriminate|]. rewrite Heq'.
    destruct (Py.rstrip_by (Py.mem chars) (Py.lstrip_by (Py.mem chars) t));
      [discriminate|exact Hc].
  - intros c Hc. rewrite (Hlast c Hc). discriminate.
Qed.

Lemma strip_brackets t : stripped_of bracket t (Py.strip (Py.text "[]") t).
Proof. eapply stripped_of_iff; [apply mem_brackets | apply strip_spec]. Qed.

(** ** Line: construction from a text line *)

Example split_example :
  Py.split example_text
  = map Py.text ["2024-01-01"; "12:00:00"; "X"; "Y"; "Z"; "[A12]";
                 "Hello"; "World"; "NNNN"]%string.
Proof. vm_compute. reflexivity. Qed.

Lemma Line_init_text_short s kwargs :
  (length (Py.split s) < 6)%nat → Line_init_text s kwargs = Err IndexError.
Proof.
  intros H. unfold Line_init_text.
  change 5%Z with (Z.of_nat 5). rewrite getitem_short by lia. reflexivity.
Qed.

Lemma Line_init_text_long s kwargs t5 :
  Py.split s !! 5%nat = Some t5 →
  Line_init_text s kwargs
  = Ok (mkLine s
          (Py.get kwargs "timestamp"
             (Py.join (Py.text " ") (Py.slice (Py.split s) 1 2)))
          (Py.get kwargs "monitorcode" (Py.strip (Py.text "[]") t5))
          (Py.get kwargs "message"
             (Py.join (Py.text " ") (Py.slice (Py.split s) 6 (-1))))).
Proof.
  intros H. unfold Line_init_text.
  change 5%Z with (Z.of_nat 5). rewrite (getitem_lookup _ _ _ H). reflexivity.
Qed.

(** C2.  A text line with at least seven whitespace-delimited tokens and no
    overrides builds a [Line] whose timestamp is token 1, whose monitor
    code is token 5 with the surrounding brackets removed, and whose
    message is the space-join of the tokens from index 6 up to, but not
    including, the last one. *)
Theorem Line_init_fields (s : Py.str) :
  (7 ≤ length (Py.split s))%nat →
  ∃ t1 t5 l,
    Py.split s !! 1%nat = Some t1 ∧ Py.split s !! 5%nat = Some t5
    ∧ Line_init (Text s) ∅ = Ok l
    ∧ line l = s
    ∧ timestamp l = t1
    ∧ monitorcode l = Py.strip (Py.text "[]") t5
    ∧ stripped_of bracket t5 (monitorcode l)
    ∧ message l
      = Py.join (Py.text " ")
          (tokens_between 6 (length (Py.split s) - 1) (Py.split s)).
Proof.
  intros Hlen.
  destruct (lookup_lt_is_Some_2 (Py.split s) 1%nat) as [t1 H1]; [lia|].
  destruct (lookup_lt_is_Some_2 (Py.split s) 5%nat) as [t5 H5]; [lia|].
  exists t1, t5. eexists. split; [exact H1|]. split; [exact H5|].
  split; [cbn [Line_init]; apply (Line_init_text_long _ _ _ H5)|].
  cbn [line timestamp monitorcode message]. unfold Py.get.
  rewrite !lookup_empty. cbn [default].
  split; [reflexivity|]. split.
  - change 1%Z with (Z.of_nat 1). change 2%Z with (Z.of_nat 2).
    rewrite (slice_single _ _ _ H1). reflexivity.
  - split; [reflexivity|]. split; [apply strip_brackets|].
    change 6%Z with (Z.of_nat 6). rewrite slice_to_last by lia. reflexivity.
Qed.

Lemma Line_init_fields_witness :
  (7 ≤ length (Py.split example_text))%nat
  ∧ ∃ t1 t5 l,
    Py.split example_text !! 1%nat = Some t1
    ∧ Py.split example_text !! 5%nat = Some t5
    ∧ Line_init (Text example_text) ∅ = Ok l
    ∧ line l = example_text
    ∧ timestamp l = t1
    ∧ monitorcode l = Py.strip (Py.text "[]") t5
    ∧ stripped_of bracket t5 (monitorcode l)
    ∧ message l
      = Py.join (Py.text " ")
          (tokens_between 6 (length (Py.split example_text) - 1)
             (Py.split example_text)).
Proof.
  split; [vm_compute; lia | apply (Line_init_fields example_text); vm_compute; lia].
Defined.

(** C3.  A text line with fewer than six whitespace-delimited tokens does
    not become a [Line]: reading [words[5]] for the monitor code raises
    [IndexError], and that is the outcome of the construction. *)
Theorem Line_init_too_short (s : Py.str) :
  (length (Py.split s) < 6)%nat →
  Py.getitem (Py.split s) 5 = Err IndexError
  ∧ Line_init (Text s) ∅ = Err IndexError.
Proof.
  intros H. split.
  - change 5%Z with (Z.of_nat 5). apply getitem_short. lia.
  - cbn [Line_init]. apply Line_init_text_short. exact H.
Qed.

Lemma Line_init_too_short_witness :
  (length (Py.split (Py.text "a b c")) < 6)%nat
  ∧ Py.getitem (Py.split (Py.text "a b c")) 5 = Err IndexError
  ∧ Line_init (Text (Py.text "a b c")) ∅ = Err IndexError.
Proof.
  split; [vm_compute; lia | apply (Line_init_too_short (Py.text "a b c")); vm_compute; lia].
Defined.

(** C10.  Overrides do not help a short line: whatever [kwargs] holds, all
    three of [timestamp], [monitorcode] and [message] included, a text
    line with fewer than six tokens raises [IndexError], because
    [words[5]] is evaluated before [kwargs] is consulted. *)
Theorem Line_init_overrides_too_short (s : Py.str) (kwargs : gmap string Py.str) :
  (length (Py.split s) < 6)%nat →
  Line_init (Text s) kwargs = Err IndexError.
Proof. intros H. cbn [Line_init]. apply Line_init_text_short. exact H. Qed.

Lemma Line_init_overrides_too_short_witness :
  (length (Py.split (Py.text "a b c")) < 6)%nat
  ∧ Line_init (Text (Py.text "a b c")) all_overrides = Err IndexError.
Proof.
  split; [vm_compute; lia
         | apply (Line_init_overrides_too_short (Py.text "a b c") all_overrides);
           vm_compute; lia].
Defined.

(** [Line] is for text: on a byte line the construction raises as well,
    with a [TypeError] once there is a second token to join. *)
Example Line_init_on_bytes :
  Line_init (Raw (list_byte_of_string "a b c")) ∅ = Err TypeError
  ∧ Line_init (Raw (list_byte_of_string "a")) ∅ = Err IndexError
  ∧ Line_init (Raw example_raw) ∅ = Err TypeError.
Proof. vm_compute. repeat split. Qed.

(** With six tokens or more the overrides are what the record holds. *)
Example Line_init_overrides_taken :
  Line_init (Text example_text) all_overrides
  = Ok (mkLine example_text (Py.text "12:00:00") (Py.text "A12") (Py.text "Hello")).
Proof. vm_compute. reflexivity. Qed.

(** ** AbstractReader: building a Line from a byte line *)

(** C1 (as amended).  With the UTF-8 encoding, [create_line] on the byte
    line [b"2024-01-01 12:00:00 X Y Z [A12] Hello World NNNN\n"] gives
    the timestamp ["12:00:00"], the monitor code ["A12"] and the message
    ["Hello World"]: the last token, ["NNNN"], is not part of the
    message.  The world is left as it was. *)
Theorem create_line_example (w : World) :
  encoding (reader w) = Codec.utf_8 →
  create_line (Raw example_raw) ∅ w
  = (Ok (mkLine example_text (Py.text "12:00:00") (Py.text "A12")
                (Py.text "Hello World")), w).
Proof.
  destruct w as [[bm bc enc cn] objs pend tr cs con]. cbn [reader encoding].
  intros ->. vm_compute. reflexivity.
Qed.

Lemma create_line_example_witness :
  encoding (reader fresh_world) = Codec.utf_8
  ∧ create_line (Raw example_raw) ∅ fresh_world
    = (Ok (mkLine example_text (Py.text "12:00:00") (Py.text "A12")
                  (Py.text "Hello World")), fresh_world).
Proof.
  split; [reflexivity | apply (create_line_example fresh_world); reflexivity].
Defined.

(** C1 as stated fails: on that byte line the message is not
    ["Hello World NNNN"]. *)
Lemma create_line_example_message_not_whole :
  ¬ ∃ l, fst (create_line (Raw example_raw) ∅ fresh_world) = Ok l
         ∧ timestamp l = Py.text "12:00:00"
         ∧ monitorcode l = Py.text "A12"
         ∧ message l = Py.text "Hello World NNNN".
Proof.
  intros (l & Hl & _ & _ & Hmsg).
  vm_compute in Hl. injection Hl as <-. vm_compute in Hmsg. discriminate.
Qed.

(** ** AbstractReader: the blacklist *)

(** C4.  On a [Line], [is_line_blacklisted] answers [true] exactly when
    the monitor code is in the blacklisted monitor codes or the message
    is in the blacklisted messages, it answers [false] when neither is,
    and it leaves the world as it was. *)
Theorem is_line_blacklisted_spec (w : World) (l : Line) :
  ∃ b : bool,
    is_line_blacklisted (Rec l) w = (Ok b, w)
    ∧ (b = true ↔ (monitorcode l ∈ blacklist_monitorcodes (reader w)
                   ∨ message l ∈ blacklist_messages (reader w)))
    ∧ (b = false ↔ ((monitorcode l ∉ blacklist_monitorcodes (reader w))
                    ∧ (message l ∉ blacklist_messages (reader w)))).
Proof.
  unfold is_line_blacklisted, is_monitorcode_blacklisted, is_message_blacklisted,
    bind, self, ret, Py.contains.
  destruct (decide (monitorcode l ∈ blacklist_monitorcodes (reader w))) as [Hc|Hc].
  - exists true. rewrite bool_decide_eq_true_2 by exact Hc.
    split; [reflexivity|]. split; [tauto|].
    split; [discriminate | tauto].
  - rewrite (bool_decide_eq_false_2 _ Hc).
    destruct (decide (message l ∈ blacklist_messages (reader w))) as [Hm|Hm].
    + exists true. rewrite bool_decide_eq_true_2 by exact Hm.
      split; [reflexivity|]. split; [tauto|].
      split; [discriminate | tauto].
    + exists false. rewrite (bool_decide_eq_false_2 _ Hm).
      split; [reflexivity|]. split; [|tauto].
      split; [discriminate | tauto].
Qed.

Example is_line_blacklisted_by_code :
  fst (is_line_blacklisted
         (Rec (mkLine [] [] (Py.text "A12") (Py.text "Hello")))
         (mkWorld (AbstractReader_init [Py.text "test"] [Py.text "A12"] ∅) ∅ [] []
                  [] []))
  = Ok true.
Proof. vm_compute. reflexivity. Qed.

Example is_line_blacklisted_neither :
  fst (is_line_blacklisted
         (Rec (mkLine [] [] (Py.text "B7") (Py.text "Hello")))
         (mkWorld (AbstractReader_init [Py.text "test"] [Py.text "A12"] ∅) ∅ [] []
                  [] []))
  = Ok false.
Proof. vm_compute. reflexivity. Qed.

(** ** AbstractReader: attach and detach *)

(** C5.  While the reader holds a connection whose [stdout] is set,
    [attach] raises [ConnectionError] and changes nothing: the reader
    keeps its connection, no object is touched, no command is run. *)
Theorem attach_active (act : Py.bytes → M unit) (w : World) (c0 c : ref) :
  connection (reader w) = Some c0 →
  is_Some (stdout (object_at c0 w)) →
  attach act c w = (Err (ConnectionError "Connection is already active."), w).
Proof.
  intros Hc [s Hs]. unfold attach, bind, self.
  rewrite Hc. unfold deref, raise. rewrite Hs. reflexivity.
Qed.

Lemma attach_active_witness :
  connection (reader active_world) = Some 1%positive
  ∧ is_Some (stdout (object_at 1%positive active_world))
  ∧ attach act_quiet 2%positive active_world
    = (Err (ConnectionError "Connection is already active."), active_world).
Proof.
  split; [reflexivity|]. split; [eexists; reflexivity|].
  apply (attach_active act_quiet active_world 1%positive 2%positive);
    [reflexivity | eexists; reflexivity].
Defined.

(** An idle reader goes straight to [__setup_connection__]. *)
Lemma attach_idle (act : Py.bytes → M unit) (w : World) (c : ref) :
  connection (reader w) = None →
  attach act c w = __setup_connection__ act c w.
Proof. intros H. unfold attach, bind, self. rewrite H. reflexivity. Qed.

(** [kill], spelled out by what the operating system answers. *)
Lemma Connection_kill_eq c w :
  Connection_kill c w
  = match calls w with
    | Ok _ :: rest =>
        (Ok (),
         mkWorld (reader w) (objects w) (pending w)
                 (trace w ++ [EvCall COMMAND_KILL]) rest (console w))
    | Err e :: rest =>
        (Err e,
         mkWorld (reader w) (objects w) (pending w) (trace w) rest (console w))
    | [] => (Err OSError, w)
    end.
Proof.
  unfold Connection_kill, bind, call, ret.
  destruct (calls w) as [|[st|e] rest]; reflexivity.
Qed.

(** [detach], spelled out the same way. *)
Lemma detach_eq w :
  detach w
  = match connection (reader w) with
    | None => (Ok (), w)
    | Some _ =>
        match calls w with
        | Ok _ :: rest =>
            (Ok (),
             mkWorld (mkReader (blacklist_messages (reader w))
                               (blacklist_monitorcodes (reader w))
                               (encoding (reader w)) None)
                     (objects w) (pending w)
                     (trace w ++ [EvCall COMMAND_KILL]) rest (console w))
        | Err e :: rest =>
            (Err e,
             mkWorld (reader w) (objects w) (pending w) (trace w) rest
                     (console w))
        | [] => (Err OSError, w)
        end
    end.
Proof.
  unfold detach. unfold bind at 1, self.
  destruct (connection (reader w)) as [c|]; [|reflexivity].
  unfold bind. rewrite Connection_kill_eq.
  destruct (calls w) as [|[st|e] rest]; reflexivity.
Qed.

(** When there is nothing to kill or the kill command can be started,
    [detach] returns and the reader holds no connection after it. *)
Lemma detach_ready (w : World) :
  kill_ready w → ∃ w', detach w = (Ok (), w') ∧ connection (reader w') = None.
Proof.
  rewrite detach_eq. intros [Hn|(st & rest & Hc)].
  - rewrite Hn. eexists. split; [reflexivity | exact Hn].
  - rewrite Hc. destruct (connection (reader w)) eqn:E;
      eexists; (split; [reflexivity|]); [reflexivity | exact E].
Qed.

(** Otherwise [detach] raises and the reader keeps its connection. *)
Lemma detach_stuck (w : World) :
  ¬ kill_ready w →
  ∃ e w', detach w = (Err e, w')
          ∧ connection (reader w') = connection (reader w)
          ∧ connection (reader w') ≠ None.
Proof.
  rewrite detach_eq. unfold kill_ready, kill_runs. intros H.
  destruct (connection (reader w)) as [c|] eqn:E; [|exfalso; apply H; left; reflexivity].
  destruct (calls w) as [|[st|e] rest] eqn:Ec.
  - do 2 eexists. split; [reflexivity|]. rewrite E. split; [reflexivity | discriminate].
  - exfalso. apply H. right. eauto.
  - do 2 eexists. split; [reflexivity|]. cbn [reader]. rewrite E.
    split; [reflexivity | discriminate].
Qed.

(** C8.  The code where the claim fails: on a host where the kill
    command cannot be started, [detach] with a connection held raises
    the error of [call] and the reader still holds the connection; and
    where it cannot be started at first and can the next time, the
    second [detach] in a row changes the state again. *)
Theorem detach_kill_cannot_start :
  connection (reader active_world) = Some 1%positive
  ∧ calls active_world = []
  ∧ detach active_world = (Err OSError, active_world)
  ∧ (let w := mkWorld (reader active_world) (objects active_world) [] []
                      [Err OSError; Ok 0%Z] [] in
     fst (detach w) = Err OSError
     ∧ connection (reader (snd (detach w))) = Some 1%positive
     ∧ connection (reader (snd (detach (snd (detach w))))) = None).
Proof. vm_compute. repeat split. Qed.

(** ** AbstractReader: the read loop *)

(** The [finally] of [__setup_connection__] when [detach] can do its
    work: the outcome of the [try] block stands. *)
Lemma setup_connection_ready act c w :
  kill_ready (snd (setup_body act c w)) →
  ∃ w2, __setup_connection__ act c w = (fst (setup_body act c w), w2)
        ∧ detach (snd (setup_body act c w)) = (Ok (), w2)
        ∧ connection (reader w2) = None.
Proof.
  intros H. unfold __setup_connection__, try_finally.
  destruct (setup_body act c w) as [r w1]. cbn [fst snd] in *.
  destruct (detach_ready w1 H) as (w2 & Hd & Hn).
  exists w2. rewrite Hd. repeat split. exact Hn.
Qed.

(** And when it cannot: the error of the kill command replaces the
    outcome of the [try] block, whatever it was, and the reader keeps
    the connection. *)
Lemma setup_connection_stuck act c w :
  ¬ kill_ready (snd (setup_body act c w)) →
  ∃ e w2, __setup_connection__ act c w = (Err e, w2)
          ∧ detach (snd (setup_body act c w)) = (Err e, w2)
          ∧ connection (reader w2) ≠ None.
Proof.
  intros H. unfold __setup_connection__, try_finally.
  destruct (setup_body act c w) as [r w1]. cbn [fst snd] in *.
  destruct (detach_stuck w1 H) as (e & w2 & Hd & _ & Hn).
  exists e, w2. rewrite Hd. repeat split. exact Hn.
Qed.

(** C6.  The code where the claim fails: on a host where the kill
    command cannot be started, a loop that ends with the stream, and a
    loop that ends with an exception of [act], both come back with the
    error of [call] instead of their own outcome, and the reader still
    holds the connection. *)
Theorem setup_connection_kill_cannot_start :
  (let w := spawn_world_no_kill [example_raw] None in
   fst (setup_body act_quiet 1%positive w) = Ok ()
   ∧ fst (__setup_connection__ act_quiet 1%positive w) = Err OSError
   ∧ connection (reader (snd (__setup_connection__ act_quiet 1%positive w)))
     = Some 1%positive)
  ∧ (let w := spawn_world_no_kill [example_raw; short_raw; example_raw] None in
     fst (setup_body act_parse 1%positive w) = Err IndexError
     ∧ fst (__setup_connection__ act_parse 1%positive w) = Err OSError
     ∧ connection (reader (snd (__setup_connection__ act_parse 1%positive w)))
       = Some 1%positive).
Proof. vm_compute. repeat split. Qed.

(** ** Connection: what [open] and [kill] do to the world *)

Ltac open_step :=
  repeat first
    [ rewrite lookup_insert_eq
    | rewrite insert_insert_eq
    | rewrite <- app_assoc
    | progress cbn [reader objects pending trace calls console fst snd default
                    id rtlfm_process multi_process stdout p_stdout app] ].

(** [open] without a kill, spelled out by what the operating system
    answers to the two spawns. *)
Lemma Connection_open_plain c w :
  Connection_open c ∅ w
  = let k0 := object_at c w in
    match pending w with
    | Ok out1 :: more =>
        let p := mkProcess COMMAND_RTLFM None out1 in
        match more with
        | Ok out2 :: rest =>
            let q := mkProcess COMMAND_MULTI (Some out1) out2 in
            (Ok (),
             mkWorld (reader w)
                     (<[c := mkConnection (Some p) (Some q) (Some out2)]> (objects w))
                     rest
                     (trace w ++ [EvPopen COMMAND_RTLFM true; EvPopen COMMAND_MULTI true])
                     (calls w) (console w))
        | _ =>
            (Err (match more with Err e :: _ => e | _ => OSError end),
             mkWorld (reader w)
                     (<[c := mkConnection (Some p) (multi_process k0) (stdout k0)]>
                        (objects w))
                     (tail more)
                     (trace w ++ [EvPopen COMMAND_RTLFM true; EvPopen COMMAND_MULTI false])
                     (calls w) (console w))
        end
    | first =>
        (Err (match first with Err e :: _ => e | _ => OSError end),
         mkWorld (reader w) (objects w) (tail first)
                 (trace w ++ [EvPopen COMMAND_RTLFM false])
                 (calls w) (console w))
    end.
Proof.
  destruct w as [r objs pend tr cs con].
  unfold Connection_open, Py.get. rewrite lookup_empty. cbn [default].
  unfold bind, Popen, assign, deref, ret, raise, object_at.
  destruct pend as [|[out1|e1] [|[out2|e2] rest]]; open_step; reflexivity.
Qed.

(** [open] with its [kill] keyword: the kill first, if asked for, and the
    two spawns only if the kill returned. *)
Lemma Connection_open_kill c kw w :
  Connection_open c kw w
  = if Py.get kw "kill" false
    then match Connection_kill c w with
         | (Ok _, w0) => Connection_open c ∅ w0
         | (Err e, w0) => (Err e, w0)
         end
    else Connection_open c ∅ w.
Proof.
  assert (E : Py.get (∅ : gmap string bool) "kill" false = false)
    by (unfold Py.get; rewrite lookup_empty; reflexivity).
  unfold Connection_open. rewrite E.
  destruct (Py.get kw "kill" false).
  - unfold bind at 1. destruct (Connection_kill c w) as [[[]|e] w0]; reflexivity.
  - reflexivity.
Qed.

Lemma Connection_kill_frame c w :
  reader (snd (Connection_kill c w)) = reader w
  ∧ objects (snd (Connection_kill c w)) = objects w
  ∧ pending (snd (Connection_kill c w)) = pending w
  ∧ console (snd (Connection_kill c w)) = console w.
Proof.
  rewrite Connection_kill_eq.
  destruct (calls w) as [|[st|e] rest]; repeat split.
Qed.

Lemma object_at_same c w w' : objects w' = objects w → object_at c w' = object_at c w.
Proof. unfold object_at. intros ->. reflexivity. Qed.

Lemma object_at_insert c c' k r objs pend tr cs con :
  object_at c' (mkWorld r (<[c := k]> objs) pend tr cs con)
  = if decide (c = c') then k else default Connection_init (objs !! c').
Proof.
  unfold object_at. cbn [objects]. rewrite lookup_insert.
  destruct (decide (c = c')); reflexivity.
Qed.

Lemma Connection_open_plain_stdout c w c' :
  is_Some (stdout (object_at c' (snd (Connection_open c ∅ w))))
  ↔ is_Some (stdout (object_at c' w))
    ∨ (c = c' ∧ returned (fst (Connection_open c ∅ w)) = true).
Proof.
  rewrite Connection_open_plain. destruct w as [r objs pend tr cs con].
  cbn [pending reader objects].
  destruct pend as [|[out1|e1] [|[out2|e2] rest]]; cbn [fst snd returned tail];
    rewrite ?object_at_insert; unfold object_at; cbn [objects stdout];
    try destruct (decide (c = c')) as [->|Hne];
    cbn [stdout]; split; intros H;
    try (left; exact H); try (destruct H as [H|[? H]]; [exact H|try discriminate]);
    try (right; split; reflexivity); try (eexists; reflexivity); try contradiction.
Qed.

(** One [open]: the connection it was called on has its stream set
    afterwards exactly when it had it before or the call returned;
    every other connection is as it was. *)
Lemma Connection_open_stdout c kw w c' :
  is_Some (stdout (object_at c' (snd (Connection_open c kw w))))
  ↔ is_Some (stdout (object_at c' w))
    ∨ (c = c' ∧ returned (fst (Connection_open c kw w)) = true).
Proof.
  rewrite Connection_open_kill.
  destruct (Py.get kw "kill" false); [|apply Connection_open_plain_stdout].
  pose proof (Connection_kill_frame c w) as (_ & Ho & _).
  destruct (Connection_kill c w) as [[[]|e] w0]; cbn [snd] in Ho.
  - rewrite Connection_open_plain_stdout, (object_at_same c' w w0 Ho). reflexivity.
  - cbn [fst snd returned]. rewrite (object_at_same c' w w0 Ho).
    split; [intros H; left; exact H | intros [H|[_ [=]]]; exact H].
Qed.

Lemma Connection_open_plain_agree c w :
  (∀ c', handles_agree (object_at c' w)) →
  ∀ c', handles_agree (object_at c' (snd (Connection_open c ∅ w))).
Proof.
  intros Hw c'. specialize (Hw c').
  rewrite Connection_open_plain. destruct w as [r objs pend tr cs con].
  cbn [pending reader objects].
  destruct pend as [|[out1|e1] [|[out2|e2] rest]]; cbn [fst snd tail];
    rewrite ?object_at_insert; try exact Hw;
    destruct (decide (c = c')) as [->|Hne]; try exact Hw;
    unfold handles_agree, object_at in *; cbn [objects rtlfm_process multi_process stdout] in *;
    (split; [first [reflexivity | apply Hw] | intros _; eexists; reflexivity]).
Qed.

Lemma Connection_open_agree c kw w :
  (∀ c', handles_agree (object_at c' w)) →
  ∀ c', handles_agree (object_at c' (snd (Connection_open c kw w))).
Proof.
  intros Hw. rewrite Connection_open_kill.
  destruct (Py.get kw "kill" false); [|apply Connection_open_plain_agree, Hw].
  pose proof (Connection_kill_frame c w) as (_ & Ho & _).
  destruct (Connection_kill c w) as [[[]|e] w0]; cbn [snd] in Ho |- *.
  - apply Connection_open_plain_agree. intros c'.
    rewrite (object_at_same c' w w0 Ho). apply Hw.
  - intros c'. rewrite (object_at_same c' w w0 Ho). apply Hw.
Qed.

Lemma run_call_stdout x w c :
  is_Some (stdout (object_at c (snd (run_call x w))))
  ↔ is_Some (stdout (object_at c w)) ∨ opened c [x] w = true.
Proof.
  destruct x as [c0 kw|c0]; cbn [run_call opened].
  - rewrite Connection_open_stdout, orb_false_r, andb_true_iff, bool_decide_eq_true.
    reflexivity.
  - pose proof (Connection_kill_frame c0 w) as (_ & Ho & _).
    rewrite (object_at_same c w _ Ho). cbn. intuition discriminate.
Qed.

Lemma run_calls_stdout xs w c :
  is_Some (stdout (object_at c (run_calls xs w)))
  ↔ is_Some (stdout (object_at c w)) ∨ opened c xs w = true.
Proof.
  revert w. induction xs as [|x xs IH]; intros w.
  - cbn. intuition discriminate.
  - cbn [run_calls]. rewrite IH, run_call_stdout.
    cbn [opened]. rewrite !orb_true_iff.
    assert (false = true ↔ False) as -> by (split; [discriminate|tauto]).
    tauto.
Qed.

Lemma run_calls_agree xs w :
  (∀ c, handles_agree (object_at c w)) →
  ∀ c, handles_agree (object_at c (run_calls xs w)).
Proof.
  revert w. induction xs as [|x xs IH]; intros w Hw; [exact Hw|].
  cbn [run_calls]. apply IH. destruct x as [c0 kw|c0]; cbn [run_call].
  - apply Connection_open_agree. exact Hw.
  - intros c. pose proof (Connection_kill_frame c0 w) as (_ & Ho & _).
    rewrite (object_at_same c w _ Ho). apply Hw.
Qed.

Lemma handles_agree_iff k :
  handles_agree k →
  is_Some (stdout k) ↔ is_Some (rtlfm_process k) ∧ is_Some (multi_process k).
Proof.
  intros [Hs Hm]. rewrite Hs. rewrite fmap_is_Some. tauto.
Qed.

(** [open] without a kill returns exactly when the operating system
    starts both processes, whatever the connection's attributes hold. *)
Lemma Connection_open_returns c w :
  returned (fst (Connection_open c ∅ w)) = true
  ↔ ∃ out1 out2 rest, pending w = Ok out1 :: Ok out2 :: rest.
Proof.
  rewrite Connection_open_plain.
  destruct (pending w) as [|[out1|e1] [|[out2|e2] rest]]; cbn; split; intros H;
    try discriminate; try reflexivity;
    try (destruct H as (? & ? & ? & [=])); try (do 3 eexists; reflexivity).
Qed.

(** C9 (as amended).  Start with no connection opened and let the caller
    make any calls to [open] and [kill].  Then the stream handle of a
    connection is set exactly when some [open] on it has returned, which
    is exactly when both of its process handles are set and the stream is
    the decode process's output; [kill] changes no connection, so the
    handle stays set after it; and [open] can be called on the
    connection again whether the handle is set or not: it returns
    exactly when both processes start. *)
Theorem stdout_set_iff_opened (xs : list conn_call) (r : Reader)
    (pend : list (result Stream)) (tr : list event)
    (cs : list (result Z)) (con : list (option exn)) (c : ref) :
  let w0 := mkWorld r ∅ pend tr cs con in
  let w := run_calls xs w0 in
  (is_Some (stdout (object_at c w)) ↔ opened c xs w0 = true)
  ∧ (is_Some (stdout (object_at c w))
     ↔ is_Some (rtlfm_process (object_at c w))
       ∧ is_Some (multi_process (object_at c w)))
  ∧ stdout (object_at c w) = p_stdout <$> multi_process (object_at c w)
  ∧ object_at c (snd (Connection_kill c w)) = object_at c w
  ∧ (returned (fst (Connection_open c ∅ w)) = true
     ↔ ∃ out1 out2 rest, pending w = Ok out1 :: Ok out2 :: rest).
Proof.
  intros w0 w.
  assert (Hinit : ∀ c', handles_agree (object_at c' w0)).
  { intros c'. unfold object_at, w0. cbn [objects]. rewrite lookup_empty.
    split; [reflexivity|]. intros [? [=]]. }
  pose proof (run_calls_agree xs w0 Hinit c) as Hagree. fold w in Hagree.
  split; [|split; [|split; [|split]]].
  - unfold w. rewrite run_calls_stdout.
    unfold object_at at 1, w0 at 1. cbn [objects]. rewrite lookup_empty.
    cbn. split; [intros [[? [=]]|H]; exact H | intros H; right; exact H].
  - apply handles_agree_iff. exact Hagree.
  - apply Hagree.
  - apply object_at_same. apply Connection_kill_frame.
  - apply Connection_open_returns.
Qed.

(** C9 as stated fails: after [open] and then [kill], the stream handle
    of the connection is still set. *)
Lemma stdout_survives_kill :
  let w := run_calls [CallOpen 1%positive ∅; CallKill 1%positive]
             (spawn_world [example_raw] None) in
  EvCall COMMAND_KILL ∈ trace w ∧ ¬ (stdout (object_at 1%positive w) = None).
Proof.
  vm_compute. split; [|discriminate].
  do 2 apply list_elem_of_further. apply list_elem_of_here.
Qed.

(** A connection whose stream handle is set can be attached again: the
    handle of the connection handed to [attach] is not looked at. *)
Example attach_reuses_opened_connection :
  let w1 := snd (attach act_quiet 1%positive (spawn_world [example_raw] None)) in
  let w2 := mkWorld (reader w1) (objects w1)
                    [Ok (mkStream [] None); Ok (mkStream [] None)] (trace w1)
                    [Ok 0%Z] [] in
  is_Some (stdout (object_at 1%positive w2))
  ∧ fst (attach act_quiet 1%positive w2) = Ok ().
Proof. vm_compute. split; [eexists|]; reflexivity. Qed.

Lemma for_each_quiet lines fault w :
  for_each act_quiet lines fault w
  = (match fault with None => Ok () | Some e => Err e end, w).
Proof.
  induction lines as [|ln rest IH]; cbn.
  - destruct fault; reflexivity.
  - unfold bind, act_quiet at 1, ret. exact IH.
Qed.

(** The [try] block when both processes start: the loop runs over the
    output of the decode process, with the connection attached. *)
Lemma setup_body_spawned act c w out1 out2 rest :
  pending w = Ok out1 :: Ok out2 :: rest →
  setup_body act c w
  = for_each act (st_lines out2) (st_fault out2)
      (mkWorld (mkReader (blacklist_messages (reader w))
                         (blacklist_monitorcodes (reader w))
                         (encoding (reader w)) (Some c))
               (<[c := mkConnection
                         (Some (mkProcess COMMAND_RTLFM None out1))
                         (Some (mkProcess COMMAND_MULTI (Some out1) out2))
                         (Some out2)]> (objects w))
               rest
               (trace w ++ [EvPopen COMMAND_RTLFM true; EvPopen COMMAND_MULTI true])
               (calls w) (console w)).
Proof.
  intros Hp. unfold setup_body, bind at 1, set_connection.
  unfold bind at 1. rewrite Connection_open_plain. cbn [pending]. rewrite Hp.
  cbn zeta. unfold bind, self, deref, object_at.
  cbn [reader connection objects]. rewrite lookup_insert_eq. reflexivity.
Qed.

(** A stream that yields any number of lines and then closes. *)
Lemma read_loop_end_of_stream (lines : list Py.bytes) :
  __setup_connection__ act_quiet 1%positive (spawn_world lines None)
  = (Ok (),
     mkWorld (AbstractReader_init [] [] ∅)
             {[ 1%positive :=
                  mkConnection
                    (Some (mkProcess COMMAND_RTLFM None (mkStream [] None)))
                    (Some (mkProcess COMMAND_MULTI (Some (mkStream [] None))
                                     (mkStream lines None)))
                    (Some (mkStream lines None)) ]}
             []
             [EvPopen COMMAND_RTLFM true; EvPopen COMMAND_MULTI true;
              EvCall COMMAND_KILL]
             [] []).
Proof.
  unfold __setup_connection__, try_finally.
  rewrite (setup_body_spawned act_quiet 1%positive (spawn_world lines None)
             (mkStream [] None) (mkStream lines None) [] eq_refl).
  rewrite for_each_quiet. reflexivity.
Qed.

(** A stream that yields its lines and then fails. *)
Lemma read_loop_stream_fault (lines : list Py.bytes) (e : exn) :
  let out := __setup_connection__ act_quiet 1%positive
               (spawn_world lines (Some e)) in
  fst out = Err e
  ∧ connection (reader (snd out)) = None
  ∧ trace (snd out)
    = [EvPopen COMMAND_RTLFM true; EvPopen COMMAND_MULTI true; EvCall COMMAND_KILL].
Proof.
  unfold __setup_connection__, try_finally.
  rewrite (setup_body_spawned act_quiet 1%positive (spawn_world lines (Some e))
             (mkStream [] None) (mkStream lines (Some e)) [] eq_refl).
  rewrite for_each_quiet. repeat split.
Qed.

(** [act] raising on the second of three lines. *)
Example read_loop_act_raises :
  let out := __setup_connection__ act_parse 1%positive
               (spawn_world [example_raw; short_raw; example_raw] None) in
  fst out = Err IndexError
  ∧ connection (reader (snd out)) = None
  ∧ trace (snd out)
    = [EvPopen COMMAND_RTLFM true; EvPopen COMMAND_MULTI true; EvCall COMMAND_KILL].
Proof. vm_compute. repeat split. Qed.

(** [act] attaching a second connection while the first is being read. *)
Example read_loop_reattach :
  let out := attach act_reattach 1%positive (spawn_world [example_raw] None) in
  fst out = Err (ConnectionError "Connection is already active.")
  ∧ connection (reader (snd out)) = None
  ∧ objects (snd out) !! 2%positive = None.
Proof. vm_compute. repeat split. Qed.

(** The second process failing to start. *)
Example read_loop_spawn_fails :
  let out := __setup_connection__ act_quiet 1%positive
               (mkWorld (AbstractReader_init [] [] ∅) ∅
                        [Ok (mkStream [] None); Err OSError] [] [Ok 0%Z] []) in
  fst out = Err OSError
  ∧ connection (reader (snd out)) = None
  ∧ stdout (object_at 1%positive (snd out)) = None
  ∧ trace (snd out)
    = [EvPopen COMMAND_RTLFM true; EvPopen COMMAND_MULTI false; EvCall COMMAND_KILL].
Proof. vm_compute. repeat split. Qed.

(** ** Codecs: decoding undoes encoding *)

Ltac Zify.zify_post_hook ::= Z.to_euclidean_division_equations.

Lemma byte_of_N_to_N n : n < 256 → Byte.to_N (Codec.byte_of_N n) = n.
Proof.
  intros H. unfold Codec.byte_of_N.
  destruct (Byte.of_N n) as [b|] eqn:E.
  - cbn. apply Byte.to_of_N. exact E.
  - apply Byte.of_N_None_iff in E. lia.
Qed.

(** Settle the test at the head of the goal, by arithmetic. *)
Ltac head_test :=
  match goal with
  | |- (if ?t then _ else _) = _ =>
      match t with
      | context [if ?a =? ?b then _ else _] => destruct (N.eqb_spec a b)
      end
  | |- (if ?t then _ else _) = _ =>
      let H := fresh in
      first
        [ assert (H : t = true)
            by (rewrite ?andb_true_iff, ?N.leb_le, ?N.ltb_lt, ?N.eqb_eq;
                repeat split; lia)
        | assert (H : t = false)
            by (rewrite ?andb_false_iff, ?N.leb_gt, ?N.ltb_ge, ?N.eqb_neq; lia) ];
      rewrite H; clear H
  end.

Ltac decode_head :=
  cbn [app Codec.utf8_decode]; cbn zeta; unfold Codec.cont;
  rewrite !byte_of_N_to_N by lia;
  repeat head_test;
  f_equal; f_equal; lia.

Lemma utf8_decode_encode_cp c bs rest :
  Codec.utf8_encode_cp c = Ok bs →
  Codec.utf8_decode (bs ++ rest) = cons c <$> Codec.utf8_decode rest.
Proof.
  unfold Codec.utf8_encode_cp.
  destruct (N.ltb_spec c 0x80) as [H1|H1]; [intros [= <-]; decode_head|].
  destruct (N.ltb_spec c 0x800) as [H2|H2]; [intros [= <-]; decode_head|].
  destruct (N.ltb_spec c 0x10000) as [H3|H3].
  { destruct (N.leb_spec 0xD800 c), (N.leb_spec c 0xDFFF); cbn [andb];
      try discriminate; intros [= <-]; decode_head. }
  destruct (N.ltb_spec c 0x110000) as [H4|H4]; [|discriminate].
  intros [= <-]; decode_head.
Qed.

Lemma ascii_decode_encode_cp c bs rest :
  Codec.ascii_encode_cp c = Ok bs →
  Codec.ascii_decode (bs ++ rest) = cons c <$> Codec.ascii_decode rest.
Proof.
  unfold Codec.ascii_encode_cp.
  destruct (N.ltb_spec c 0x80) as [H|H]; [|discriminate].
  intros [= <-]. cbn [app Codec.ascii_decode].
  rewrite byte_of_N_to_N by lia.
  destruct (N.ltb_spec c 0x80); [reflexivity|lia].
Qed.

Lemma latin1_decode_encode_cp c bs rest :
  Codec.latin1_encode_cp c = Ok bs →
  Codec.latin1_decode (bs ++ rest) = cons c <$> Codec.latin1_decode rest.
Proof.
  unfold Codec.latin1_encode_cp, Codec.latin1_decode.
  destruct (N.ltb_spec c 0x100) as [H|H]; [|discriminate].
  intros [= <-]. cbn [app map]. rewrite byte_of_N_to_N by lia. reflexivity.
Qed.

Section RoundTrip.

(** Any decoder that undoes the per-code-point encoder in front of the
    rest of the input undoes the encoding of a whole text. *)
Variable enc_cp : N → result Py.bytes.
Variable dec : Py.bytes → result Py.str.
Hypothesis dec_nil : dec [] = Ok [].
Hypothesis dec_cp :
  ∀ c bs rest, enc_cp c = Ok bs → dec (bs ++ rest) = cons c <$> dec rest.

Lemma decode_encode_with s b :
  Codec.encode_with enc_cp s = Ok b → dec b = Ok s.
Proof.
  revert b. induction s as [|c s IH]; intros b; cbn [Codec.encode_with].
  - intros [= <-]. exact dec_nil.
  - destruct (enc_cp c) as [bs|e] eqn:Ec; [|discriminate].
    destruct (Codec.encode_with enc_cp s) as [rest|e] eqn:Es; [|discriminate].
    cbn. intros [= <-]. rewrite (dec_cp _ _ _ Ec), (IH _ eq_refl). reflexivity.
Qed.

End RoundTrip.

(** For the three codecs embedded in full, decoding gives back the text
    that was encoded. *)
Lemma decode_encode enc s b :
  Codec.builtin enc → Codec.encode enc s = Ok b → Codec.decode enc b = Ok s.
Proof.
  intros [->|[->| ->]]; cbn [Codec.encode Codec.decode].
  - apply decode_encode_with; [reflexivity | apply utf8_decode_encode_cp].
  - apply decode_encode_with; [reflexivity | apply ascii_decode_encode_cp].
  - apply decode_encode_with; [reflexivity | apply latin1_decode_encode_cp].
Qed.

(** Not every codec does: with a codec that treats the yen sign as
    [shift_jis] does, the text encodes, and decodes to another text. *)
Example decode_encode_not_for_every_codec :
  Codec.encode yen_codec [0xA5; 0x20; 0x78; 0x0A] = Ok [x5c; x20; x78; x0a]
  ∧ Codec.decode yen_codec [x5c; x20; x78; x0a] = Ok [0x5C; 0x20; 0x78; 0x0A]
  ∧ Codec.encode (Codec.unknown "utf-9") [0x78] = Err LookupError.
Proof. vm_compute. repeat split. Qed.

Example utf8_euro_grin :
  Codec.encode Codec.utf_8 [0x20AC; 0x1F600]
  = Ok [xe2; x82; xac; xf0; x9f; x98; x80]
  ∧ Codec.decode Codec.utf_8 [xe2; x82; xac; xf0; x9f; x98; x80]
    = Ok [0x20AC; 0x1F600].
Proof. vm_compute. split; reflexivity. Qed.

Example utf8_rejects_overlong_and_surrogate :
  Codec.decode Codec.utf_8 [xc0; x80] = Err UnicodeDecodeError
  ∧ Codec.decode Codec.utf_8 [xed; xa0; x80] = Err UnicodeDecodeError
  ∧ Codec.encode Codec.utf_8 [0xD800] = Err UnicodeEncodeError.
Proof. vm_compute. repeat split. Qed.

(** ** AbstractReader: decode_line *)

Lemma rstrip_rstripped s : rstripped_of whitespace s (Py.rstrip s).
Proof.
  unfold Py.rstrip, whitespace.
  destruct (rstrip_by_spec Py.isspace s) as (post & Heq & Hpost & Hlast).
  exists post. split; [exact Heq|]. split; [exact Hpost|].
  intros c Hc. rewrite (Hlast c Hc). discriminate.
Qed.

(** A line that ends in a line feed, with no whitespace before it, loses
    exactly the line feed. *)
Lemma rstrip_newline t :
  (∀ c, last t = Some c → Py.isspace c = false) →
  Py.rstrip (t ++ [0x0A]) = t.
Proof.
  intros Hlast. unfold Py.rstrip, Py.rstrip_by.
  rewrite rev_app_distr. cbn [rev app Py.lstrip_by].
  change (Py.isspace 10) with true. cbn iota.
  destruct (rev t) as [|x r] eqn:E.
  - apply (f_equal (@rev N)) in E. rewrite rev_involutive in E. subst t. reflexivity.
  - apply (f_equal (@rev N)) in E. rewrite rev_involutive in E. cbn [rev] in E.
    cbn [Py.lstrip_by]. rewrite (Hlast x); [|rewrite E; apply last_snoc].
    cbn [rev]. symmetry. exact E.
Qed.

(** C7 (as amended).  Take a text that the reader's encoding can encode,
    and let the encoding be UTF-8, ASCII or Latin-1, or any codec whose
    [decode] gives the text back from the encoded bytes.  Then
    [decode_line] on the encoded bytes gives the text back unchanged when
    [strip] is false, the trailing newline included, and gives the text
    without its trailing whitespace, newline or other, when [strip] is
    true; that is the text minus its newline when the text ends in a
    newline with no whitespace before it.  The world is left as it
    was. *)
Theorem decode_line_after_encode (w : World) (s : Py.str) (b : Py.bytes) :
  Codec.encode (encoding (reader w)) s = Ok b →
  Codec.builtin (encoding (reader w))
  ∨ Codec.decode (encoding (reader w)) b = Ok s →
  decode_line (Raw b) false w = (Ok s, w)
  ∧ decode_line (Raw b) true w = (Ok (Py.rstrip s), w)
  ∧ rstripped_of whitespace s (Py.rstrip s)
  ∧ ∀ t, s = t ++ [0x0A] → (∀ c, last t = Some c → ¬ whitespace c) →
         Py.rstrip s = t ∧ chomp s = t.
Proof.
  intros H Hcodec.
  assert (Hd : Codec.decode (encoding (reader w)) b = Ok s).
  { destruct Hcodec as [Hb|Hd]; [apply (decode_encode _ _ _ Hb H) | exact Hd]. }
  unfold decode_line, bind, self, lift. rewrite Hd. cbn.
  split; [reflexivity|]. split; [reflexivity|].
  split; [apply rstrip_rstripped|].
  intros t -> Ht. split.
  - apply rstrip_newline. intros c Hc. specialize (Ht c Hc).
    unfold whitespace in Ht. destruct (Py.isspace c); [contradiction|reflexivity].
  - unfold chomp. rewrite last_snoc. change (10 =? 10) with true. cbn iota.
    apply removelast_last.
Qed.

Lemma decode_line_after_encode_witness :
  Codec.encode (encoding (reader fresh_world)) (example_text ++ [0x0A])
  = Ok example_raw
  ∧ (Codec.builtin (encoding (reader fresh_world))
     ∨ Codec.decode (encoding (reader fresh_world)) example_raw
       = Ok (example_text ++ [0x0A]))
  ∧ decode_line (Raw example_raw) false fresh_world
    = (Ok (example_text ++ [0x0A]), fresh_world)
  ∧ decode_line (Raw example_raw) true fresh_world
    = (Ok (Py.rstrip (example_text ++ [0x0A])), fresh_world)
  ∧ rstripped_of whitespace (example_text ++ [0x0A])
      (Py.rstrip (example_text ++ [0x0A]))
  ∧ ∀ t, example_text ++ [0x0A] = t ++ [0x0A] →
         (∀ c, last t = Some c → ¬ whitespace c) →
         Py.rstrip (example_text ++ [0x0A]) = t
         ∧ chomp (example_text ++ [0x0A]) = t.
Proof.
  split; [vm_compute; reflexivity|].
  split; [left; left; reflexivity|].
  apply (decode_line_after_encode fresh_world (example_text ++ [0x0A]) example_raw);
    [vm_compute; reflexivity | left; left; reflexivity].
Defined.

(** C7 as stated fails: a text with a blank before its newline loses the
    blank too, so the result is not the text minus its trailing newline. *)
Lemma decode_line_strips_more_than_newline :
  let s := Py.text "A12 " ++ [0x0A] in
  ∃ b, Codec.encode Codec.utf_8 s = Ok b
       ∧ chomp s = Py.text "A12 "
       ∧ fst (decode_line (Raw b) true fresh_world) = Ok (Py.text "A12")
       ∧ fst (decode_line (Raw b) true fresh_world) ≠ Ok (chomp s).
Proof.
  eexists. split; [vm_compute; reflexivity|].
  split; [vm_compute; reflexivity|].
  split; [vm_compute; reflexivity|].
  vm_compute. discriminate.
Qed.

(** Nor does it hold for every encoding a reader can be configured
    with: under a codec that treats the yen sign as [shift_jis] does, a
    text with a yen sign encodes, and [decode_line] gives another text
    back, with [strip] set or not. *)
Example decode_line_not_inverse_for_every_codec :
  let s := [0xA5; 0x20; 0x78; 0x0A] in
  let w := mkWorld (AbstractReader_init [] [] {[ "encoding" := yen_codec ]})
                   ∅ [] [] [] [] in
  ∃ b, Codec.encode (encoding (reader w)) s = Ok b
       ∧ fst (decode_line (Raw b) false w) = Ok [0x5C; 0x20; 0x78; 0x0A]
       ∧ fst (decode_line (Raw b) false w) ≠ Ok s
       ∧ fst (decode_line (Raw b) true w) = Ok [0x5C; 0x20; 0x78]
       ∧ fst (decode_line (Raw b) true w) ≠ Ok (Py.rstrip s).
Proof.
  eexists. split; [vm_compute; reflexivity|].
  split; [vm_compute; reflexivity|]. split; [vm_compute; discriminate|].
  split; [vm_compute; reflexivity|]. vm_compute. discriminate.
Qed.

(** * Further properties of the code *)

(** ** str.split and str.join *)

Section SplitFacts.
Context {A : Type}.
Variable sp : A → bool.
Implicit Types cur s t : list A.

Lemma split_from_run t cur s :
  Forall (λ c, sp c = false) t →
  Py.split_from sp cur (t ++ s) = Py.split_from sp (rev t ++ cur) s.
Proof.
  intros Ht. revert cur. induction Ht as [|c t Hc Ht IH]; intros cur; [reflexivity|].
  cbn [app Py.split_from rev]. rewrite Hc, IH, <- app_assoc. reflexivity.
Qed.

Lemma split_from_blank ws :
  Forall (λ c, sp c = true) ws → Py.split_from sp [] ws = [].
Proof.
  induction 1 as [|c ws Hc _ IH]; [reflexivity|].
  cbn [Py.split_from]. rewrite Hc, IH. reflexivity.
Qed.

Lemma split_from_trailing cur s ws :
  Forall (λ c, sp c = true) ws →
  Py.split_from sp cur (s ++ ws) = Py.split_from sp cur s.
Proof.
  intros Hws. revert cur. induction s as [|c s IH]; intros cur.
  - cbn [app]. destruct Hws as [|x ws Hx Hws]; [reflexivity|].
    cbn [Py.split_from]. rewrite Hx, (split_from_blank _ Hws). reflexivity.
  - cbn [app Py.split_from]. rewrite !IH. reflexivity.
Qed.

Lemma split_from_tokens cur s :
  Forall (λ c, sp c = false) cur →
  Forall (λ t, t ≠ [] ∧ Forall (λ c, sp c = false) t) (Py.split_from sp cur s).
Proof.
  revert cur. induction s as [|c s IH]; intros cur Hcur; cbn [Py.split_from].
  - destruct cur as [|x cur]; cbn [Py.flush]; [constructor|].
    constructor; [|constructor]. split.
    + cbn [rev]. intros E. apply app_eq_nil in E as [_ [=]].
    + apply Forall_forall. intros y Hy. rewrite Forall_forall in Hcur.
      apply Hcur. apply list_elem_of_In, in_rev, list_elem_of_In. exact Hy.
  - destruct (sp c) eqn:Ec.
    + destruct cur as [|x cur]; cbn [Py.flush]; [apply IH; constructor|].
      constructor; [|apply IH; constructor]. split.
      * cbn [rev]. intros E. apply app_eq_nil in E as [_ [=]].
      * apply Forall_forall. intros y Hy. rewrite Forall_forall in Hcur.
        apply Hcur. apply list_elem_of_In, in_rev, list_elem_of_In. exact Hy.
    + apply IH. constructor; assumption.
Qed.

End SplitFacts.

Lemma split_tokens s : Forall token (Py.split s).
Proof. apply (split_from_tokens Py.isspace [] s). constructor. Qed.

(** Splitting the space-join of tokens gives the tokens back. *)
Lemma split_join ws :
  Forall token ws → Py.split (Py.join (Py.text " ") ws) = ws.
Proof.
  induction 1 as [|t ws [Hne Ht] Hws IH]; [reflexivity|].
  unfold Py.split in *. cbn [Py.join].
  destruct ws as [|t' ws'].
  - rewrite <- (app_nil_r t) at 1. rewrite split_from_run by exact Ht.
    cbn [Py.split_from]. rewrite app_nil_r.
    destruct (rev t) eqn:E.
    + apply (f_equal (@rev N)) in E. rewrite rev_involutive in E. contradiction.
    + cbn [Py.flush]. rewrite <- E, rev_involutive. reflexivity.
  - rewrite split_from_run by exact Ht. rewrite app_nil_r.
    change (Py.text " ") with [0x20]. cbn [app Py.split_from].
    change (Py.isspace 32) with true. cbn iota.
    change [0x20] with (Py.text " "). rewrite IH.
    destruct (rev t) eqn:E.
    + apply (f_equal (@rev N)) in E. rewrite rev_involutive in E. contradiction.
    + cbn [Py.flush]. rewrite <- E, rev_involutive. reflexivity.
Qed.

Lemma join_nil_iff ws :
  Forall token ws → Py.join (Py.text " ") ws = [] ↔ ws = [].
Proof.
  intros H. split; [|intros ->; reflexivity].
  destruct H as [|t ws [Hne _] _]; [reflexivity|].
  cbn [Py.join]. destruct ws; [contradiction|].
  intros E. apply app_eq_nil in E as [E _]. contradiction.
Qed.

Lemma split_rstrip s : Py.split (Py.rstrip s) = Py.split s.
Proof.
  unfold Py.rstrip.
  destruct (rstrip_by_spec Py.isspace s) as (post & Heq & Hpost & _).
  rewrite Heq at 2. unfold Py.split. rewrite split_from_trailing by exact Hpost.
  reflexivity.
Qed.

(** ** Line: when construction succeeds, and what the fields are *)

Lemma Line_init_text_cases s kwargs :
  (length (Py.split s) < 6)%nat ∧ Line_init_text s kwargs = Err IndexError
  ∨ ∃ t5, Py.split s !! 5%nat = Some t5
          ∧ Line_init_text s kwargs
            = Ok (mkLine s
                    (Py.get kwargs "timestamp"
                       (Py.join (Py.text " ") (Py.slice (Py.split s) 1 2)))
                    (Py.get kwargs "monitorcode" (Py.strip (Py.text "[]") t5))
                    (Py.get kwargs "message"
                       (Py.join (Py.text " ") (Py.slice (Py.split s) 6 (-1))))).
Proof.
  destruct (Py.split s !! 5%nat) as [t5|] eqn:E.
  - right. exists t5. split; [reflexivity|]. apply Line_init_text_long. exact E.
  - left. apply lookup_ge_None in E. split; [lia|].
    apply Line_init_text_short. lia.
Qed.

(** X1.  On a text line, [Line] is built exactly when the line has at
    least six whitespace-delimited tokens, whatever [kwargs] holds; with
    fewer the constructor raises [IndexError]. *)
Theorem Line_init_returns_iff (s : Py.str) (kwargs : gmap string Py.str) :
  (returned (Line_init (Text s) kwargs) = true
   ↔ (6 ≤ length (Py.split s))%nat)
  ∧ (returned (Line_init (Text s) kwargs) = false
     ↔ Line_init (Text s) kwargs = Err IndexError).
Proof.
  cbn [Line_init].
  destruct (Line_init_text_cases s kwargs) as [[Hlen ->]|(t5 & H5 & ->)]; cbn [returned].
  - split; split; intros H; try reflexivity; try discriminate. lia.
  - apply lookup_lt_Some in H5.
    split; split; intros H; try reflexivity; try discriminate. lia.
Qed.

(** X2.  Overrides take precedence field by field: once the plain
    construction works, the construction with [kwargs] works too, and
    each of [timestamp], [monitorcode] and [message] is the value under
    its key when the key is there and the extracted value otherwise.
    The [line] attribute is the raw text either way. *)
Theorem Line_init_overrides (s : Py.str) (kwargs : gmap string Py.str)
    (l0 : Line) :
  Line_init (Text s) ∅ = Ok l0 →
  Line_init (Text s) kwargs
  = Ok (mkLine s
          (default (timestamp l0) (kwargs !! "timestamp"))
          (default (monitorcode l0) (kwargs !! "monitorcode"))
          (default (message l0) (kwargs !! "message"))).
Proof.
  cbn [Line_init].
  destruct (Line_init_text_cases s ∅) as [[_ ->]|(t5 & H5 & ->)]; [discriminate|].
  intros [= <-]. rewrite (Line_init_text_long _ _ _ H5).
  unfold Py.get. rewrite !lookup_empty. reflexivity.
Qed.

Lemma Line_init_overrides_witness :
  let l0 := mkLine example_text (Py.text "12:00:00") (Py.text "A12")
                   (Py.text "Hello World") in
  let kwargs : gmap string Py.str := {[ "message" := Py.text "test" ]} in
  Line_init (Text example_text) ∅ = Ok l0
  ∧ Line_init (Text example_text) kwargs
    = Ok (mkLine example_text
            (default (timestamp l0) (kwargs !! "timestamp"))
            (default (monitorcode l0) (kwargs !! "monitorcode"))
            (default (message l0) (kwargs !! "message"))).
Proof.
  intros l0 kwargs. split; [vm_compute; reflexivity|].
  apply (Line_init_overrides example_text kwargs l0).
  vm_compute. reflexivity.
Defined.

Lemma slice_tokens (ws : list Py.str) lo hi :
  Forall token ws → Forall token (Py.slice ws lo hi).
Proof.
  intros H. unfold Py.slice. apply Forall_take, Forall_drop. exact H.
Qed.

(** X3.  Without overrides, the message of a [Line] is empty exactly
    when the line has six or seven tokens: the seventh token, when it is
    the last one, is left out like any last token. *)
Theorem Line_init_message_empty_iff (s : Py.str) (l : Line) :
  Line_init (Text s) ∅ = Ok l →
  message l = [] ↔ (length (Py.split s) ≤ 7)%nat.
Proof.
  cbn [Line_init].
  destruct (Line_init_text_cases s ∅) as [[_ ->]|(t5 & H5 & ->)]; [discriminate|].
  intros [= <-]. cbn [message]. unfold Py.get. rewrite lookup_empty. cbn [default].
  apply lookup_lt_Some in H5.
  rewrite join_nil_iff by (apply slice_tokens, split_tokens).
  destruct (decide (length (Py.split s) = 6)%nat) as [E|E].
  - split; [lia|]. intros _. apply length_zero_iff_nil.
    unfold Py.slice, Py.slice_bound. cbn [Z.ltb Z.compare]. rewrite E.
    reflexivity.
  - change 6%Z with (Z.of_nat 6). rewrite slice_to_last by lia.
    rewrite <- length_zero_iff_nil, length_take, length_drop. lia.
Qed.

Lemma Line_init_message_empty_iff_witness :
  Line_init (Text (Py.text "d t a b c [A1] x")) ∅
  = Ok (mkLine (Py.text "d t a b c [A1] x") (Py.text "t") (Py.text "A1") [])
  ∧ (message (mkLine (Py.text "d t a b c [A1] x") (Py.text "t") (Py.text "A1") [])
     = []
     ↔ (length (Py.split (Py.text "d t a b c [A1] x")) ≤ 7)%nat).
Proof.
  split; [vm_compute; reflexivity|].
  apply (Line_init_message_empty_iff (Py.text "d t a b c [A1] x")).
  vm_compute. reflexivity.
Defined.

(** [Line.__init__] looks at the text through its tokens only. *)
Lemma Line_init_text_same_tokens s s' kwargs :
  Py.split s' = Py.split s →
  Line_init_text s' kwargs = with_line s' <$> Line_init_text s kwargs.
Proof.
  intros H. unfold Line_init_text. rewrite H.
  destruct (Py.getitem (Py.split s) 5); reflexivity.
Qed.

(** X4.  The fields extracted from a text line are clean: the timestamp
    is one token, the monitor code holds no whitespace, and splitting
    the message gives back the tokens it was joined from, so tokens in
    the message are separated by exactly one space. *)
Theorem Line_init_fields_clean (s : Py.str) (l : Line) :
  Line_init (Text s) ∅ = Ok l →
  token (timestamp l)
  ∧ Forall (λ c, Py.isspace c = false) (monitorcode l)
  ∧ Py.split (message l) = Py.slice (Py.split s) 6 (-1)
  ∧ message l = Py.join (Py.text " ") (Py.split (message l)).
Proof.
  cbn [Line_init].
  destruct (Line_init_text_cases s ∅) as [[_ ->]|(t5 & H5 & ->)]; [discriminate|].
  intros [= <-]. cbn [timestamp monitorcode message]. unfold Py.get.
  rewrite !lookup_empty. cbn [default].
  pose proof (split_tokens s) as Htok.
  destruct (lookup_lt_is_Some_2 (Py.split s) 1%nat) as [t1 H1];
    [apply lookup_lt_Some in H5; lia|].
  split; [|split; [|split]].
  - change 1%Z with (Z.of_nat 1). change 2%Z with (Z.of_nat 2).
    rewrite (slice_single _ _ _ H1). cbn [Py.join].
    exact (proj1 (Forall_lookup _ _) Htok _ _ H1).
  - destruct (proj1 (Forall_lookup _ _) Htok _ _ H5) as [_ H5s].
    destruct (strip_spec (Py.text "[]") t5) as (pre & post & Heq & _).
    rewrite Heq in H5s. apply Forall_app in H5s as [_ H5s].
    apply Forall_app in H5s as [H5s _]. exact H5s.
  - apply split_join, slice_tokens, Htok.
  - rewrite split_join by (apply slice_tokens, Htok). reflexivity.
Qed.

Lemma Line_init_fields_clean_witness :
  let l := mkLine example_text (Py.text "12:00:00") (Py.text "A12")
                  (Py.text "Hello World") in
  Line_init (Text example_text) ∅ = Ok l
  ∧ token (timestamp l)
  ∧ Forall (λ c, Py.isspace c = false) (monitorcode l)
  ∧ Py.split (message l) = Py.slice (Py.split example_text) 6 (-1)
  ∧ message l = Py.join (Py.text " ") (Py.split (message l)).
Proof.
  intros l. split; [vm_compute; reflexivity|].
  apply (Line_init_fields_clean example_text l). vm_compute. reflexivity.
Defined.

(** X5.  Whitespace does not matter beyond separating tokens: the line
    rebuilt as the single-space join of its tokens gives the same
    outcome, error included, and the same timestamp, monitor code and
    message; only the [line] attribute differs. *)
Theorem Line_init_normalised (s : Py.str) (kwargs : gmap string Py.str) :
  Line_init (Text (Py.join (Py.text " ") (Py.split s))) kwargs
  = with_line (Py.join (Py.text " ") (Py.split s)) <$> Line_init (Text s) kwargs.
Proof.
  cbn [Line_init]. apply Line_init_text_same_tokens.
  apply split_join, split_tokens.
Qed.

(** ** AbstractReader: create_line and its keyword arguments *)

Lemma create_line_raw_eq b kwargs w :
  create_line (Raw b) kwargs w
  = (if Py.get kwargs "decode" true
     then s ← Codec.decode (encoding (reader w)) b;
          Line_init_text
            (if Py.get kwargs "strip" true then Py.rstrip s else s) ∅
     else Line_init_bytes b,
     w).
Proof.
  unfold create_line, decode_line, bind, self, lift.
  destruct (Py.get kwargs "decode" true); [|reflexivity].
  destruct (Codec.decode (encoding (reader w)) b); reflexivity.
Qed.

(** X6.  The [strip] keyword of [create_line] changes the [line]
    attribute and nothing else: with [strip=False] the outcome is the
    same as by default, error included, except that [line] keeps its
    trailing whitespace.  Neither call changes the world. *)
Theorem create_line_strip_only_line (b : Py.bytes) (w : World) :
  create_line (Raw b) ∅ w
  = ((λ l, with_line (Py.rstrip (line l)) l)
       <$> fst (create_line (Raw b) {[ "strip" := false ]} w), w)
  ∧ snd (create_line (Raw b) {[ "strip" := false ]} w) = w.
Proof.
  rewrite !create_line_raw_eq. unfold Py.get.
  rewrite !lookup_empty, lookup_singleton_eq, lookup_singleton_ne by discriminate.
  cbn [default fst snd]. split; [|reflexivity]. f_equal.
  destruct (Codec.decode (encoding (reader w)) b) as [s|e]; [|reflexivity].
  cbn. rewrite (Line_init_text_same_tokens s (Py.rstrip s)) by apply split_rstrip.
  destruct (Line_init_text_cases s ∅) as [[_ ->]|(t5 & _ & ->)]; reflexivity.
Qed.

Lemma blacklist_check_raw (b : Py.bytes) (w : World)
    (pick : Reader → list Py.str) (field : Line → Py.str) r :
  create_line (Raw b) ∅ w = (r, w) →
  (l <- create_line (Raw b) ∅;;
   rd <- self;; ret (Py.contains (pick rd) (field l))) w
  = match r with
    | Ok l => (Ok (Py.contains (pick (reader w)) (field l)), w)
    | Err e => (Err e, w)
    end.
Proof. intros Hc. unfold bind at 1. rewrite Hc. destruct r; reflexivity. Qed.

Lemma is_line_blacklisted_rec_eq (l : Line) (w : World) :
  is_line_blacklisted (Rec l) w
  = (Ok (Py.contains (blacklist_monitorcodes (reader w)) (monitorcode l)
         || Py.contains (blacklist_messages (reader w)) (message l)), w).
Proof.
  unfold is_line_blacklisted, is_monitorcode_blacklisted, is_message_blacklisted,
    bind, self, ret.
  destruct (Py.contains (blacklist_monitorcodes (reader w)) (monitorcode l));
    reflexivity.
Qed.

(** X7.  Asked about a raw byte line, [is_line_blacklisted] builds the
    [Line] with [create_line] and answers as it does for that [Line]; an
    exception of [create_line] (undecodable bytes, too few tokens) comes
    out of the check unchanged.  The same holds for the two single checks. *)
Theorem is_line_blacklisted_raw (b : Py.bytes) (w : World) :
  let via (check : arg → M bool) :=
    match fst (create_line (Raw b) ∅ w) with
    | Ok l => check (Rec l) w
    | Err e => (Err e, w)
    end in
  is_line_blacklisted (Raw b) w = via is_line_blacklisted
  ∧ is_monitorcode_blacklisted (Raw b) w = via is_monitorcode_blacklisted
  ∧ is_message_blacklisted (Raw b) w = via is_message_blacklisted.
Proof.
  cbn zeta.
  pose proof (create_line_raw_eq b ∅ w) as Hc.
  set (r := if Py.get ∅ "decode" true then _ else _) in Hc.
  pose proof (blacklist_check_raw b w blacklist_monitorcodes monitorcode r Hc) as Hmon.
  pose proof (blacklist_check_raw b w blacklist_messages message r Hc) as Hmsg.
  fold (is_monitorcode_blacklisted (Raw b)) in Hmon.
  fold (is_message_blacklisted (Raw b)) in Hmsg.
  rewrite Hmon, Hmsg, Hc. cbn [fst].
  destruct r as [l|e].
  - split; [|split; reflexivity].
    rewrite is_line_blacklisted_rec_eq.
    unfold is_line_blacklisted. unfold bind at 1. rewrite Hmon.
    destruct (Py.contains (blacklist_monitorcodes (reader w)) (monitorcode l));
      [reflexivity|]. rewrite Hmsg. reflexivity.
  - split; [|split; reflexivity].
    unfold is_line_blacklisted. unfold bind at 1. rewrite Hmon. reflexivity.
Qed.

(** X8.  Decoded text is not accepted where a byte line is expected:
    [decode_line], [create_line] with its default [decode=True] and the
    three blacklist checks raise [AttributeError] on a [str] and leave
    the world alone.  With [decode=False], [create_line] hands the text
    to [Line] as it is. *)
Theorem text_needs_decode_false (s : Py.str) (w : World) :
  (∀ strip, decode_line (Text s) strip w = (Err AttributeError, w))
  ∧ create_line (Text s) ∅ w = (Err AttributeError, w)
  ∧ is_monitorcode_blacklisted (Text s) w = (Err AttributeError, w)
  ∧ is_message_blacklisted (Text s) w = (Err AttributeError, w)
  ∧ is_line_blacklisted (Text s) w = (Err AttributeError, w)
  ∧ create_line (Text s) {[ "decode" := false ]} w = (Line_init (Text s) ∅, w).
Proof.
  assert (Hc : create_line (Text s) ∅ w = (Err AttributeError, w)).
  { unfold create_line, Py.get. rewrite !lookup_empty. reflexivity. }
  split; [reflexivity|]. split; [exact Hc|].
  unfold is_line_blacklisted, is_monitorcode_blacklisted, is_message_blacklisted.
  unfold bind at 1 2 3 4. rewrite Hc.
  repeat split.
Qed.

Lemma slice_second_nil {A} (l : list A) :
  Py.slice l 1 2 = [] ↔ (length l < 2)%nat.
Proof.
  destruct l as [|x [|y r]].
  - split; [cbn; lia | reflexivity].
  - split; [cbn; lia | reflexivity].
  - change 1%Z with (Z.of_nat 1). change 2%Z with (Z.of_nat 2).
    rewrite slice_inside by (cbn [length]; lia).
    cbn. split; [discriminate | lia].
Qed.

(** X9.  With [decode=False] a byte line never becomes a [Line]:
    [create_line] raises [TypeError] when the line has two tokens or
    more (joining [bytes] with a [str] separator) and [IndexError]
    otherwise. *)
Theorem create_line_undecoded_bytes (b : Py.bytes) (kwargs : gmap string bool)
    (w : World) :
  create_line (Raw b) (<["decode" := false]> kwargs) w
  = (Err (if decide (2 ≤ length (Py.bsplit b))%nat then TypeError else IndexError),
     w).
Proof.
  rewrite create_line_raw_eq. unfold Py.get at 1.
  rewrite lookup_insert_eq. cbn [default]. f_equal.
  unfold Line_init_bytes.
  destruct (decide (2 ≤ length (Py.bsplit b))%nat) as [H|H].
  - destruct (Py.slice (Py.bsplit b) 1 2) eqn:E; [|reflexivity].
    apply slice_second_nil in E. lia.
  - destruct (Py.slice (Py.bsplit b) 1 2) eqn:E.
    + cbn. change 5%Z with (Z.of_nat 5). rewrite getitem_short by lia. reflexivity.
    + assert (Py.slice (Py.bsplit b) 1 2 = []) as E' by (apply slice_second_nil; lia).
      congruence.
Qed.

(** ** AbstractReader: decode_line on ASCII input *)

Lemma decode_ascii_bytes enc b :
  Codec.builtin enc →
  Forall (λ x, Byte.to_N x < 0x80) b →
  Codec.decode enc b = Ok (map Byte.to_N b).
Proof.
  intros [->|[->| ->]] H; cbn [Codec.decode]; [| |reflexivity].
  - induction H as [|x b Hx _ IH]; [reflexivity|].
    cbn [Codec.utf8_decode map]. cbn zeta.
    destruct (N.ltb_spec (Byte.to_N x) 0x80); [|lia]. rewrite IH. reflexivity.
  - induction H as [|x b Hx _ IH]; [reflexivity|].
    cbn [Codec.ascii_decode map].
    destruct (N.ltb_spec (Byte.to_N x) 0x80); [|lia]. rewrite IH. reflexivity.
Qed.

(** X10.  On a byte line made of ASCII bytes only, [decode_line] gives
    the same under UTF-8, ASCII and Latin-1: it returns the bytes as code
    points, right-stripped when [strip] is set, and never raises. *)
Theorem decode_line_ascii (b : Py.bytes) (strip : bool) (w : World) :
  Codec.builtin (encoding (reader w)) →
  Forall (λ x, Byte.to_N x < 0x80) b →
  decode_line (Raw b) strip w
  = (Ok (if strip then Py.rstrip (map Byte.to_N b) else map Byte.to_N b), w).
Proof.
  intros Hb H. unfold decode_line, bind, self, lift.
  rewrite (decode_ascii_bytes _ _ Hb H). reflexivity.
Qed.

Lemma decode_line_ascii_witness :
  Codec.builtin (encoding (reader active_world))
  ∧ Forall (λ x, Byte.to_N x < 0x80) example_raw
  ∧ decode_line (Raw example_raw) true active_world
    = (Ok (if true then Py.rstrip (map Byte.to_N example_raw)
           else map Byte.to_N example_raw), active_world).
Proof.
  assert (H : Forall (λ x, Byte.to_N x < 0x80) example_raw).
  { apply Forall_forall. intros x Hx. apply list_elem_of_In in Hx.
    vm_compute in Hx.
    repeat (destruct Hx as [<-|Hx]; [vm_compute; reflexivity|]). destruct Hx. }
  split; [left; reflexivity|]. split; [exact H|].
  apply (decode_line_ascii example_raw true active_world);
    [left; reflexivity | exact H].
Defined.

(** ** Connection: open *)

Lemma kill_granted_dec kw w : kill_granted kw w ∨ ¬ kill_granted kw w.
Proof.
  unfold kill_granted, kill_runs.
  destruct (Py.get kw "kill" false); [|left; left; reflexivity].
  destruct (calls w) as [|[st|e] rest].
  - right. intros [[=]|(? & ? & [=])].
  - left. right. eauto.
  - right. intros [[=]|(? & ? & [=])].
Qed.

(** With the kill granted, [open] is the two spawns, run after the kill
    if one was asked for. *)
Lemma Connection_open_granted c kw w :
  kill_granted kw w →
  ∃ w0, Connection_open c kw w = Connection_open c ∅ w0
        ∧ reader w0 = reader w ∧ objects w0 = objects w
        ∧ pending w0 = pending w
        ∧ trace w0
          = trace w
            ++ (if Py.get kw "kill" false then [EvCall COMMAND_KILL] else []).
Proof.
  intros Hg. rewrite Connection_open_kill. unfold kill_granted, kill_runs in Hg.
  destruct (Py.get kw "kill" false).
  - destruct Hg as [[=]|(st & rest & Hc)].
    rewrite Connection_kill_eq, Hc. eexists. split; [reflexivity|]. repeat split.
  - exists w. split; [reflexivity|]. rewrite app_nil_r. repeat split.
Qed.

(** With the kill asked for and not to be had, [open] raises before any
    spawn. *)
Lemma Connection_open_refused c kw w :
  ¬ kill_granted kw w →
  ∃ e w0, Connection_open c kw w = (Err e, w0)
          ∧ reader w0 = reader w ∧ objects w0 = objects w
          ∧ pending w0 = pending w ∧ trace w0 = trace w.
Proof.
  intros Hg. rewrite Connection_open_kill. unfold kill_granted, kill_runs in Hg.
  destruct (Py.get kw "kill" false); [|exfalso; apply Hg; left; reflexivity].
  rewrite Connection_kill_eq.
  destruct (calls w) as [|[st|e] rest].
  - do 2 eexists. split; [reflexivity|]. repeat split.
  - exfalso. apply Hg. right. eauto.
  - do 2 eexists. split; [reflexivity|]. repeat split.
Qed.

(** X11.  When the operating system starts both processes, [open]
    returns and the connection is wired as a pipeline: the capture
    process has no input of ours, the decode process reads the capture
    process's output, and the connection's stream is the decode
    process's output.  Whatever the connection held before is replaced. *)
Theorem Connection_open_wires (c : ref) (kwargs : gmap string bool) (w : World)
    (out1 out2 : Stream) (rest : list (result Stream)) :
  pending w = Ok out1 :: Ok out2 :: rest →
  kill_granted kwargs w →
  ∃ w', Connection_open c kwargs w = (Ok (), w')
        ∧ object_at c w'
          = mkConnection (Some (mkProcess COMMAND_RTLFM None out1))
                         (Some (mkProcess COMMAND_MULTI (Some out1) out2))
                         (Some out2)
        ∧ pending w' = rest.
Proof.
  intros Hp Hg.
  destruct (Connection_open_granted c kwargs w Hg) as (w0 & -> & _ & _ & Hp0 & _).
  rewrite Connection_open_plain, Hp0, Hp. cbn zeta. eexists.
  split; [reflexivity|]. split; [|reflexivity].
  rewrite object_at_insert. rewrite decide_True by reflexivity. reflexivity.
Qed.

Lemma Connection_open_wires_witness :
  let w := spawn_world [example_raw] None in
  pending w = [Ok (mkStream [] None); Ok (mkStream [example_raw] None)]
  ∧ kill_granted ∅ w
  ∧ ∃ w', Connection_open 1%positive ∅ w = (Ok (), w')
          ∧ object_at 1%positive w'
            = mkConnection
                (Some (mkProcess COMMAND_RTLFM None (mkStream [] None)))
                (Some (mkProcess COMMAND_MULTI (Some (mkStream [] None))
                                 (mkStream [example_raw] None)))
                (Some (mkStream [example_raw] None))
          ∧ pending w' = [].
Proof.
  intros w. split; [reflexivity|]. split; [left; reflexivity|].
  apply (Connection_open_wires 1%positive ∅ w (mkStream [] None)
           (mkStream [example_raw] None) []); [reflexivity | left; reflexivity].
Defined.

(** X12.  When the capture process starts and the decode process does
    not, [open] raises the spawn error and undoes nothing: the new
    capture process stays recorded in the connection, the decode process
    and the stream handle are the ones from before the call, and no kill
    command follows the failure. *)
Theorem Connection_open_half_started (c : ref) (kwargs : gmap string bool)
    (w : World) (out1 : Stream) (more : list (result Stream)) :
  pending w = Ok out1 :: more →
  (∀ out2 rest, more ≠ Ok out2 :: rest) →
  kill_granted kwargs w →
  ∃ e w', Connection_open c kwargs w = (Err e, w')
          ∧ object_at c w'
            = mkConnection (Some (mkProcess COMMAND_RTLFM None out1))
                           (multi_process (object_at c w))
                           (stdout (object_at c w))
          ∧ trace w'
            = trace w
              ++ (if Py.get kwargs "kill" false then [EvCall COMMAND_KILL] else [])
              ++ [EvPopen COMMAND_RTLFM true; EvPopen COMMAND_MULTI false].
Proof.
  intros Hp Hmore Hg.
  destruct (Connection_open_granted c kwargs w Hg)
    as (w0 & -> & _ & Ho0 & Hp0 & Ht0).
  rewrite Connection_open_plain, Hp0, Hp. cbn zeta.
  rewrite (object_at_same c w w0 Ho0), Ht0, <- app_assoc.
  destruct more as [|[out2|e2] rest]; [| exfalso; eapply Hmore; reflexivity |];
    do 2 eexists; (split; [reflexivity|]);
    rewrite object_at_insert, decide_True by reflexivity;
    (split; reflexivity).
Qed.

Lemma Connection_open_half_started_witness :
  let w := mkWorld (AbstractReader_init [] [] ∅) ∅
                   [Ok (mkStream [] None); Err OSError] [] [] [] in
  pending w = Ok (mkStream [] None) :: [Err OSError]
  ∧ (∀ out2 rest, [@Err Stream OSError] ≠ Ok out2 :: rest)
  ∧ kill_granted ∅ w
  ∧ ∃ e w', Connection_open 1%positive ∅ w = (Err e, w')
            ∧ object_at 1%positive w'
              = mkConnection
                  (Some (mkProcess COMMAND_RTLFM None (mkStream [] None)))
                  (multi_process (object_at 1%positive w))
                  (stdout (object_at 1%positive w))
            ∧ trace w'
              = trace w
                ++ (if Py.get (∅ : gmap string bool) "kill" false
                    then [EvCall COMMAND_KILL] else [])
                ++ [EvPopen COMMAND_RTLFM true; EvPopen COMMAND_MULTI false].
Proof.
  intros w. split; [reflexivity|]. split; [discriminate|].
  split; [left; reflexivity|].
  apply (Connection_open_half_started 1%positive ∅ w (mkStream [] None)
           [Err OSError]); [reflexivity | discriminate | left; reflexivity].
Defined.

Lemma Connection_open_plain_frame c w :
  let out := Connection_open c ∅ w in
  reader (snd out) = reader w
  ∧ (∀ c', c' ≠ c → object_at c' (snd out) = object_at c' w)
  ∧ (∃ used, pending w = used ++ pending (snd out) ∧ (length used ≤ 2)%nat)
  ∧ (returned (fst out) = false
     → stdout (object_at c (snd out)) = stdout (object_at c w)).
Proof.
  cbn zeta. rewrite Connection_open_plain. destruct w as [r objs pend tr cs con].
  cbn [pending reader objects].
  destruct pend as [|[out1|e1] [|[out2|e2] rest]]; cbn [fst snd reader pending tail returned];
    (split; [reflexivity|]);
    (split; [intros c' Hc'; rewrite ?object_at_insert, ?decide_False by congruence;
             reflexivity|]);
    (split;
     [first [ exists []; split; [reflexivity | cbn; lia]
            | eexists [_]; split; [reflexivity | cbn; lia]
            | eexists [_; _]; split; [reflexivity | cbn; lia] ]|]);
    intros H; try discriminate;
    rewrite ?object_at_insert, ?decide_True by reflexivity; reflexivity.
Qed.

(** X13.  [open] on one connection keeps its hands off everything else:
    the reader and every other connection are as before, at most two
    answers of the operating system are used up, and a call that raises
    leaves the stream handle of its own connection as it was. *)
Theorem Connection_open_frame (c : ref) (kwargs : gmap string bool) (w : World) :
  let out := Connection_open c kwargs w in
  reader (snd out) = reader w
  ∧ (∀ c', c' ≠ c → object_at c' (snd out) = object_at c' w)
  ∧ (∃ used, pending w = used ++ pending (snd out) ∧ (length used ≤ 2)%nat)
  ∧ (returned (fst out) = false
     → stdout (object_at c (snd out)) = stdout (object_at c w)).
Proof.
  cbn zeta. destruct (kill_granted_dec kwargs w) as [Hg|Hg].
  - destruct (Connection_open_granted c kwargs w Hg)
      as (w0 & -> & Hr0 & Ho0 & Hp0 & _).
    pose proof (Connection_open_plain_frame c w0) as H. cbn zeta in H.
    rewrite Hr0, Hp0 in H.
    destruct H as (H1 & H2 & H3 & H4).
    split; [exact H1|]. split; [|split; [exact H3|]].
    + intros c' Hc'. rewrite (H2 c' Hc'). apply object_at_same, Ho0.
    + intros Hf. rewrite (H4 Hf). f_equal. apply object_at_same, Ho0.
  - destruct (Connection_open_refused c kwargs w Hg)
      as (e & w0 & -> & Hr0 & Ho0 & Hp0 & _). cbn [fst snd].
    split; [exact Hr0|]. split; [|split].
    + intros c' _. apply object_at_same, Ho0.
    + exists []. split; [rewrite Hp0; reflexivity | cbn; lia].
    + intros _. f_equal. apply object_at_same, Ho0.
Qed.

(** X14.  The kill command is run by [open] only when asked for with
    [kill], and then before any process is started: after it come one or
    two spawn attempts and nothing else, and [open] returns exactly when
    both processes started.  When the kill is asked for and the command
    cannot be started, [open] raises before any spawn is attempted:
    nothing is recorded and no connection changes. *)
Theorem Connection_open_trace (c : ref) (kwargs : gmap string bool) (w : World) :
  (kill_granted kwargs w
   ∧ ∃ spawns,
       trace (snd (Connection_open c kwargs w))
       = trace w
         ++ (if Py.get kwargs "kill" false then [EvCall COMMAND_KILL] else [])
         ++ spawns
       ∧ (spawns = [EvPopen COMMAND_RTLFM false]
          ∨ spawns = [EvPopen COMMAND_RTLFM true; EvPopen COMMAND_MULTI false]
          ∨ spawns = [EvPopen COMMAND_RTLFM true; EvPopen COMMAND_MULTI true])
       ∧ (returned (fst (Connection_open c kwargs w)) = true
          ↔ spawns = [EvPopen COMMAND_RTLFM true; EvPopen COMMAND_MULTI true]))
  ∨ (¬ kill_granted kwargs w
     ∧ Py.get kwargs "kill" false = true
     ∧ returned (fst (Connection_open c kwargs w)) = false
     ∧ trace (snd (Connection_open c kwargs w)) = trace w
     ∧ objects (snd (Connection_open c kwargs w)) = objects w
     ∧ pending (snd (Connection_open c kwargs w)) = pending w).
Proof.
  destruct (kill_granted_dec kwargs w) as [Hg|Hg].
  - left. split; [exact Hg|].
    destruct (Connection_open_granted c kwargs w Hg) as (w0 & -> & _ & _ & _ & Ht0).
    rewrite Connection_open_plain.
    destruct (pending w0) as [|[out1|e1] [|[out2|e2] rest]];
      cbn [fst snd trace returned]; eexists;
      (split; [rewrite Ht0, <- app_assoc; reflexivity|]);
      (split; [auto|]); split; intros H; try discriminate; reflexivity.
  - right. split; [exact Hg|].
    split; [destruct (Py.get kwargs "kill" false) eqn:E;
            [reflexivity | exfalso; apply Hg; left; exact E]|].
    destruct (Connection_open_refused c kwargs w Hg)
      as (e & w0 & -> & _ & Ho0 & Hp0 & Ht0).
    cbn [fst snd returned]. repeat split; assumption.
Qed.

(** ** AbstractReader: the loop, attach, detach *)

Lemma for_each_app act l1 l2 fault w :
  for_each act (l1 ++ l2) fault w
  = match for_each act l1 None w with
    | (Ok _, w1) => for_each act l2 fault w1
    | (Err e, w1) => (Err e, w1)
    end.
Proof.
  revert w. induction l1 as [|ln l1 IH]; intros w; [reflexivity|].
  cbn [app for_each]. unfold bind at 1 2.
  destruct (act ln w) as [[[]|e] w1]; [apply IH | reflexivity].
Qed.

(** X15.  The read loop hands the lines to [act] in order and stops at
    the first exception: once [act] raises on a line, that exception is
    the outcome, and neither the lines after it nor the way the stream
    would have ended play any part. *)
Theorem for_each_stops_at_exception (act : Py.bytes → M unit)
    (before : list Py.bytes) (ln : Py.bytes) (later : list Py.bytes)
    (fault : option exn) (w w1 w2 : World) (e : exn) :
  for_each act before None w = (Ok (), w1) →
  act ln w1 = (Err e, w2) →
  for_each act (before ++ ln :: later) fault w = (Err e, w2).
Proof.
  intros Hdone Hln. rewrite for_each_app, Hdone.
  cbn [for_each]. unfold bind. rewrite Hln. reflexivity.
Qed.

Lemma for_each_stops_at_exception_witness :
  for_each act_fussy [example_raw] None fresh_world = (Ok (), fresh_world)
  ∧ act_fussy [x0a] fresh_world = (Err (Raised "blank line"), fresh_world)
  ∧ for_each act_fussy ([example_raw] ++ [x0a] :: [example_raw])
      (Some OSError) fresh_world
    = (Err (Raised "blank line"), fresh_world).
Proof.
  split; [reflexivity|]. split; [reflexivity|].
  apply (for_each_stops_at_exception act_fussy [example_raw] [x0a] [example_raw]
           (Some OSError) fresh_world fresh_world fresh_world
           (Raised "blank line")); reflexivity.
Defined.

Lemma kill_ready_dec w : kill_ready w ∨ ¬ kill_ready w.
Proof.
  unfold kill_ready, kill_runs.
  destruct (connection (reader w)); [|left; left; reflexivity].
  destruct (calls w) as [|[st|e] rest].
  - right. intros [[=]|(? & ? & [=])].
  - left. right. eauto.
  - right. intros [[=]|(? & ? & [=])].
Qed.

(** X23.  [detach] does its work exactly when there is no connection to
    kill or the kill command can be started: then it returns, the reader
    holds no connection, and a second [detach] in a row changes nothing.
    Otherwise it raises and the reader keeps its connection.  Either way
    no connection object and no pending spawn is touched. *)
Theorem detach_outcome (w : World) :
  (fst (detach w) = Ok () ↔ kill_ready w)
  ∧ (connection (reader (snd (detach w))) = None ↔ kill_ready w)
  ∧ objects (snd (detach w)) = objects w
  ∧ pending (snd (detach w)) = pending w
  ∧ (kill_ready w → detach (snd (detach w)) = (Ok (), snd (detach w))).
Proof.
  destruct (kill_ready_dec w) as [H|H].
  - destruct (detach_ready w H) as (w' & Hd & Hn). rewrite Hd. cbn [fst snd].
    split; [tauto|]. split; [tauto|].
    assert (Hsame : objects w' = objects w ∧ pending w' = pending w).
    { rewrite detach_eq in Hd.
      destruct (connection (reader w)); [|injection Hd as <-; split; reflexivity].
      destruct (calls w) as [|[st|e] rest]; try discriminate.
      injection Hd as <-. split; reflexivity. }
    split; [apply Hsame|]. split; [apply Hsame|].
    intros _. rewrite detach_eq, Hn. reflexivity.
  - destruct (detach_stuck w H) as (e & w' & Hd & Hc & Hn). rewrite Hd. cbn [fst snd].
    split; [split; [discriminate | contradiction]|].
    split; [split; [intros E; contradiction | contradiction]|].
    assert (Hsame : objects w' = objects w ∧ pending w' = pending w).
    { rewrite detach_eq in Hd.
      destruct (connection (reader w)); [|discriminate].
      destruct (calls w) as [|[st|e0] rest]; try discriminate;
        injection Hd as _ <-; split; reflexivity. }
    split; [apply Hsame|]. split; [apply Hsame|]. contradiction.
Qed.

(** X24.  Provided the kill command can be started when the [finally]
    is reached (or no connection is left to kill), [__setup_connection__]
    does what its docstring says: whatever the [try] block returns or
    raises is what the caller gets, [detach] has run on the world the
    block left, and the reader holds no connection. *)
Theorem setup_connection_detaches_when_kill_runs (act : Py.bytes → M unit)
    (c : ref) (w : World) :
  kill_ready (snd (setup_body act c w)) →
  ∃ w2, __setup_connection__ act c w = (fst (setup_body act c w), w2)
        ∧ detach (snd (setup_body act c w)) = (Ok (), w2)
        ∧ connection (reader w2) = None.
Proof. apply setup_connection_ready. Qed.

Lemma setup_connection_detaches_when_kill_runs_witness :
  let w := spawn_world [example_raw; short_raw; example_raw] None in
  kill_ready (snd (setup_body act_parse 1%positive w))
  ∧ ∃ w2, __setup_connection__ act_parse 1%positive w
          = (fst (setup_body act_parse 1%positive w), w2)
          ∧ detach (snd (setup_body act_parse 1%positive w)) = (Ok (), w2)
          ∧ connection (reader w2) = None.
Proof.
  intros w.
  assert (H : kill_ready (snd (setup_body act_parse 1%positive w))).
  { right. exists 0%Z, []. vm_compute. reflexivity. }
  split; [exact H|].
  apply (setup_connection_detaches_when_kill_runs act_parse 1%positive w H).
Defined.

Lemma attach_by_activity act c w :
  attach act c w
  = if active w then (Err (ConnectionError "Connection is already active."), w)
    else __setup_connection__ act c w.
Proof.
  unfold active, attach, bind, self, deref, raise.
  destruct (connection (reader w)) as [c0|]; [|reflexivity].
  destruct (stdout (object_at c0 w)) as [s|] eqn:Es.
  - rewrite bool_decide_eq_true_2 by (eexists; reflexivity). reflexivity.
  - rewrite bool_decide_eq_false_2 by (intros [? [=]]). reflexivity.
Qed.

(** X16.  [attach] has two ways to go.  If the reader holds a connection
    whose stream handle is set, it raises [ConnectionError] and changes
    nothing.  Otherwise, with no connection held or with one that has no
    stream, it runs [__setup_connection__] on the new connection; and
    then, provided the kill command can be started when [detach] runs,
    the caller gets the outcome of the [try] block and the reader holds
    no connection when [attach] comes back. *)
Theorem attach_cases (act : Py.bytes → M unit) (c : ref) (w : World) :
  (active w = true
   ∧ attach act c w = (Err (ConnectionError "Connection is already active."), w))
  ∨ (active w = false
     ∧ attach act c w = __setup_connection__ act c w
     ∧ (kill_ready (snd (setup_body act c w))
        → fst (attach act c w) = fst (setup_body act c w)
          ∧ connection (reader (snd (attach act c w))) = None)).
Proof.
  rewrite attach_by_activity. destruct (active w).
  - left. split; reflexivity.
  - right. split; [reflexivity|]. split; [reflexivity|].
    intros H. destruct (setup_connection_ready act c w H) as (w2 & -> & _ & Hn).
    split; [reflexivity | exact Hn].
Qed.

(** X22.  A reader can be attached again as soon as [attach] has come
    back: after a call that was not refused and whose [detach] could
    start the kill command, the next [attach], to any connection, the
    same one included, is not refused either. *)
Theorem attach_again (act act' : Py.bytes → M unit) (c c' : ref) (w : World) :
  active w = false →
  kill_ready (snd (setup_body act c w)) →
  active (snd (attach act c w)) = false
  ∧ attach act' c' (snd (attach act c w))
    = __setup_connection__ act' c' (snd (attach act c w)).
Proof.
  intros H Hk.
  assert (Hidle : active (snd (attach act c w)) = false).
  { rewrite attach_by_activity, H. unfold active.
    destruct (setup_connection_ready act c w Hk) as (w2 & -> & _ & Hn).
    cbn [snd]. rewrite Hn. reflexivity. }
  split; [exact Hidle|]. rewrite (attach_by_activity act'), Hidle. reflexivity.
Qed.

Lemma attach_again_witness :
  let w := spawn_world [example_raw] None in
  active w = false
  ∧ kill_ready (snd (setup_body act_quiet 1%positive w))
  ∧ active (snd (attach act_quiet 1%positive w)) = false
  ∧ attach act_parse 1%positive (snd (attach act_quiet 1%positive w))
    = __setup_connection__ act_parse 1%positive
        (snd (attach act_quiet 1%positive w)).
Proof.
  intros w.
  assert (H : kill_ready (snd (setup_body act_quiet 1%positive w))).
  { right. exists 0%Z, []. vm_compute. reflexivity. }
  split; [reflexivity|]. split; [exact H|].
  apply (attach_again act_quiet act_parse 1%positive 1%positive w);
    [reflexivity | exact H].
Defined.




(** ** Line: the string form *)

Lemma app_cut (x : N) (a a' r r' : Py.str) :
  x ∉ a → x ∉ a' → a ++ x :: r = a' ++ x :: r' → a = a' ∧ r = r'.
Proof.
  revert a'. induction a as [|y a IH]; intros [|z a'] Ha Ha' E; cbn [app] in E.
  - injection E as <-. split; reflexivity.
  - injection E as <- _. exfalso. apply Ha'. apply list_elem_of_here.
  - injection E as -> _. exfalso. apply Ha. apply list_elem_of_here.
  - injection E as <- E.
    destruct (IH a') as [-> ->]; [| |exact E|split; reflexivity].
    + intros H. apply Ha. apply list_elem_of_further. exact H.
    + intros H. apply Ha'. apply list_elem_of_further. exact H.
Qed.

Example Line_str_example :
  Line_str (mkLine (Py.text "raw") (Py.text "t") (Py.text "c") (Py.text "m"))
  = Py.text "@line = raw" ++ [0x0A; 0x09] ++ Py.text "@message = m"
    ++ [0x0A; 0x09] ++ Py.text "@timestamp = t"
    ++ [0x0A; 0x09] ++ Py.text "@monitorcode = c".
Proof. vm_compute. reflexivity. Qed.

Lemma labelled_parts_inj (p1 p2 p3 p4 a b c d a' b' c' d' : Py.str) :
  0x0A ∉ a → 0x0A ∉ b → 0x0A ∉ c → 0x0A ∉ a' → 0x0A ∉ b' → 0x0A ∉ c' →
  p1 ++ a ++ [0x0A; 0x09] ++ p2 ++ b ++ [0x0A; 0x09] ++ p3 ++ c
     ++ [0x0A; 0x09] ++ p4 ++ d
  = p1 ++ a' ++ [0x0A; 0x09] ++ p2 ++ b' ++ [0x0A; 0x09] ++ p3 ++ c'
       ++ [0x0A; 0x09] ++ p4 ++ d' →
  a = a' ∧ b = b' ∧ c = c' ∧ d = d'.
Proof.
  intros Ha Hb Hc Ha' Hb' Hc' E.
  apply app_inv_head in E. cbn [app] in E.
  apply app_cut in E as [-> E]; [|assumption..].
  injection E as E. apply app_inv_head in E.
  apply app_cut in E as [-> E]; [|assumption..].
  injection E as E. apply app_inv_head in E.
  apply app_cut in E as [-> E]; [|assumption..].
  injection E as E. apply app_inv_head in E. subst. repeat split.
Qed.

(** X18.  The string form tells lines apart: two [Line]s whose [line],
    [message] and [timestamp] hold no line feed have the same string
    form only if all four attributes are the same. *)
Theorem Line_str_injective (l l' : Line) :
  one_line_fields l → one_line_fields l' →
  Line_str l = Line_str l' → l = l'.
Proof.
  intros (Hl & Hm & Ht) (Hl' & Hm' & Ht') E. unfold Line_str in E.
  apply labelled_parts_inj in E as (E1 & E2 & E3 & E4); [|assumption..].
  destruct l, l'. cbn in *. congruence.
Qed.

Lemma Line_str_injective_witness :
  let l := mkLine example_text (Py.text "12:00:00") (Py.text "A12")
                  (Py.text "Hello World") in
  one_line_fields l ∧ (Line_str l = Line_str l → l = l).
Proof.
  intros l.
  assert (H : one_line_fields l).
  { repeat split; intros H; apply list_elem_of_In in H; vm_compute in H;
      repeat (destruct H as [H|H]; [discriminate H|]); exact H. }
  split; [exact H | apply (Line_str_injective l l H H)].
Defined.

(** ** examples/reader.py: MyReader *)

Lemma create_line_default_eq raw w :
  create_line (Raw raw) ∅ w
  = (s ← Codec.decode (encoding (reader w)) raw; Line_init_text (Py.rstrip s) ∅,
     w).
Proof.
  rewrite create_line_raw_eq. unfold Py.get. rewrite !lookup_empty. reflexivity.
Qed.

Lemma create_line_well_formed raw w :
  well_formed (encoding (reader w)) raw →
  ∃ l, create_line (Raw raw) ∅ w = (Ok l, w)
       ∧ shown (reader w) raw = report (reader w) l.
Proof.
  intros (s & Hs & Hlen). rewrite create_line_default_eq. unfold shown.
  rewrite Hs. cbn.
  destruct (Line_init_text_cases (Py.rstrip s) ∅) as [[Hshort _]|(t5 & _ & ->)].
  - rewrite split_rstrip in Hshort. lia.
  - eexists. split; reflexivity.
Qed.

Lemma create_line_not_well_formed raw w :
  ¬ well_formed (encoding (reader w)) raw →
  ∃ e, create_line (Raw raw) ∅ w = (Err e, w).
Proof.
  intros H. rewrite create_line_default_eq. unfold well_formed in H.
  destruct (Codec.decode (encoding (reader w)) raw) as [s|e]; [|eexists; reflexivity].
  cbn.
  destruct (Line_init_text_cases (Py.rstrip s) ∅) as [[_ ->]|(t5 & H5 & _)];
    [eexists; reflexivity|].
  exfalso. apply H. exists s. split; [reflexivity|].
  apply lookup_lt_Some in H5. rewrite split_rstrip in H5. lia.
Qed.

Lemma MyReader_act_eq raw w :
  MyReader_act raw w
  = match fst (create_line (Raw raw) ∅ w) with
    | Ok l => print (report (reader w) l) w
    | Err e => (Err e, w)
    end.
Proof.
  unfold MyReader_act. unfold bind at 1. rewrite create_line_default_eq. cbn [fst].
  destruct (_ ≫= _) as [l|e]; [|reflexivity].
  unfold bind. rewrite is_line_blacklisted_rec_eq. unfold report.
  destruct (_ || _); reflexivity.
Qed.

Lemma MyReader_act_good raw w :
  well_formed (encoding (reader w)) raw →
  MyReader_act raw w = print (shown (reader w) raw) w.
Proof.
  intros H. destruct (create_line_well_formed raw w H) as (l & Hl & ->).
  rewrite MyReader_act_eq, Hl. reflexivity.
Qed.

Lemma MyReader_act_bad raw w :
  ¬ well_formed (encoding (reader w)) raw →
  ∃ e, create_line (Raw raw) ∅ w = (Err e, w) ∧ MyReader_act raw w = (Err e, w).
Proof.
  intros H. destruct (create_line_not_well_formed raw w H) as (e & He).
  exists e. split; [exact He|]. rewrite MyReader_act_eq, He. reflexivity.
Qed.

Lemma well_formed_dec enc raw : well_formed enc raw ∨ ¬ well_formed enc raw.
Proof.
  unfold well_formed. destruct (Codec.decode enc raw) as [s|e].
  - destruct (decide (6 ≤ length (Py.split s))%nat) as [H|H].
    + left. exists s. split; [reflexivity | exact H].
    + right. intros (s' & [= <-] & H'). contradiction.
  - right. intros (s' & [=] & _).
Qed.

(** X19.  [MyReader.act] returns on exactly the byte lines that are
    well-formed, that is decode under the reader's encoding to a text of
    at least six tokens, and whose report the terminal takes.  On a
    well-formed line it does nothing but print: the blacklist banner, or
    the string form of the [Line].  On any other line it raises what
    [create_line] raises, before anything is printed, and changes
    nothing. *)
Theorem MyReader_act_outcome (raw : Py.bytes) (w : World) :
  (fst (MyReader_act raw w) = Ok ()
   ↔ well_formed (encoding (reader w)) raw ∧ ∃ rest, console w = None :: rest)
  ∧ (well_formed (encoding (reader w)) raw
     → MyReader_act raw w = print (shown (reader w) raw) w)
  ∧ (¬ well_formed (encoding (reader w)) raw
     → ∃ e, create_line (Raw raw) ∅ w = (Err e, w)
            ∧ MyReader_act raw w = (Err e, w)).
Proof.
  split; [|split; [apply MyReader_act_good | apply MyReader_act_bad]].
  destruct (well_formed_dec (encoding (reader w)) raw) as [H|H].
  - rewrite (MyReader_act_good raw w H). unfold print.
    destruct (console w) as [|[e|] rest]; cbn [fst].
    + split; [discriminate | intros (_ & ? & [=])].
    + split; [discriminate | intros (_ & ? & [=])].
    + split; [intros _; split; [exact H | eexists; reflexivity] | reflexivity].
  - destruct (MyReader_act_bad raw w H) as (e & _ & ->). cbn [fst].
    split; [discriminate | intros [H' _]; contradiction].
Qed.

(** The loop of [MyReader] over well-formed lines, each of which the
    terminal takes. *)
Lemma for_each_MyReader lines fault w con :
  Forall (well_formed (encoding (reader w))) lines →
  console w = replicate (length lines) None ++ con →
  for_each MyReader_act lines fault w
  = (match fault with None => Ok () | Some e => Err e end,
     mkWorld (reader w) (objects w) (pending w)
             (trace w ++ map EvPrint (map (shown (reader w)) lines))
             (calls w) con).
Proof.
  intros Hgood. revert w Hgood. induction lines as [|ln lines IH]; intros w Hgood Hcon.
  - cbn [for_each length replicate app map] in *. rewrite app_nil_r.
    destruct w as [r o p t cs con']. cbn in Hcon. subst con'.
    destruct fault; reflexivity.
  - apply Forall_cons in Hgood as [Hln Hgood].
    cbn [for_each]. unfold bind at 1. rewrite (MyReader_act_good ln w Hln).
    unfold print. cbn [length replicate app] in Hcon. rewrite Hcon.
    rewrite IH; [|exact Hgood|reflexivity].
    cbn [reader objects pending trace calls console map].
    rewrite <- app_assoc. reflexivity.
Qed.

(** X20.  The example program on a stream of well-formed lines: attached
    from an idle reader, with both processes starting, a terminal that
    takes every report and a kill command that can be started,
    [MyReader] reads the stream to its end and [attach] returns normally,
    or with the stream's fault if it ended in one.  One report has been
    printed per line, in order; the connection is wired; the kill
    command has been run once, at the end; the reader is idle again. *)
Theorem MyReader_reads_to_end (c : ref) (w : World) (out1 : Stream)
    (lines : list Py.bytes) (fault : option exn) (rest : list (result Stream))
    (status : Z) (cs : list (result Z)) (con : list (option exn)) :
  connection (reader w) = None →
  pending w = Ok out1 :: Ok (mkStream lines fault) :: rest →
  Forall (well_formed (encoding (reader w))) lines →
  console w = replicate (length lines) None ++ con →
  calls w = Ok status :: cs →
  attach MyReader_act c w
  = (match fault with None => Ok () | Some e => Err e end,
     after_loop c w out1 (mkStream lines fault) rest
       (map (shown (reader w)) lines) cs con).
Proof.
  intros Hidle Hp Hgood Hcon Hk. rewrite (attach_idle _ _ _ Hidle).
  unfold __setup_connection__, try_finally.
  rewrite (setup_body_spawned _ _ _ _ _ _ Hp). cbn [st_lines st_fault].
  rewrite (for_each_MyReader _ _ _ con); [|exact Hgood|exact Hcon].
  rewrite detach_eq. cbn [reader connection calls]. rewrite Hk.
  unfold after_loop. cbn [reader objects pending trace calls console
                          blacklist_messages blacklist_monitorcodes encoding].
  rewrite <- !app_assoc. reflexivity.
Qed.

Lemma MyReader_reads_to_end_witness :
  let w := mkWorld (AbstractReader_init [] [Py.text "A12"] ∅) ∅
                   [Ok (mkStream [] None);
                    Ok (mkStream [example_raw; example_raw] None)]
                   [] [Ok 0%Z] [None; None] in
  connection (reader w) = None
  ∧ pending w
    = Ok (mkStream [] None) :: Ok (mkStream [example_raw; example_raw] None) :: []
  ∧ Forall (well_formed (encoding (reader w))) [example_raw; example_raw]
  ∧ console w = replicate (length [example_raw; example_raw]) None ++ []
  ∧ calls w = Ok 0%Z :: []
  ∧ attach MyReader_act 1%positive w
    = (Ok (),
       after_loop 1%positive w (mkStream [] None)
         (mkStream [example_raw; example_raw] None) []
         (map (shown (reader w)) [example_raw; example_raw]) [] []).
Proof.
  intros w.
  assert (Hwf : well_formed (encoding (reader w)) example_raw).
  { exists (example_text ++ [0x0A]). split; vm_compute; [reflexivity | lia]. }
  split; [reflexivity|]. split; [reflexivity|].
  split; [repeat constructor; exact Hwf|].
  split; [reflexivity|]. split; [reflexivity|].
  apply (MyReader_reads_to_end 1%positive w (mkStream [] None)
           [example_raw; example_raw] None [] 0%Z [] []);
    [reflexivity | reflexivity | repeat constructor; exact Hwf
    | reflexivity | reflexivity].
Defined.

(** What is printed in that run: the line is blacklisted by its monitor
    code, so the banner, twice. *)
Example MyReader_prints_banner :
  shown (AbstractReader_init [] [Py.text "A12"] ∅) example_raw
  = Py.text "== LINE IS BLACKLISTED =="
  ∧ shown (AbstractReader_init [] [] ∅) example_raw
    = Line_str (mkLine example_text (Py.text "12:00:00") (Py.text "A12")
                       (Py.text "Hello World")).
Proof. vm_compute. split; reflexivity. Qed.

(** X21.  The example program on a stream with a bad line: the first
    line that is not well-formed ends the loop.  With a terminal that
    takes the reports of the lines before it and a kill command that can
    be started, [attach] raises what [create_line] raised on that line,
    only the lines before it have been reported, the lines after it are
    never looked at, and the clean-up is the same as at the end of a
    stream. *)
Theorem MyReader_stops_at_bad_line (c : ref) (w : World) (out1 : Stream)
    (good : list Py.bytes) (bad : Py.bytes) (later : list Py.bytes)
    (fault : option exn) (rest : list (result Stream))
    (status : Z) (cs : list (result Z)) (con : list (option exn)) :
  connection (reader w) = None →
  pending w = Ok out1 :: Ok (mkStream (good ++ bad :: later) fault) :: rest →
  Forall (well_formed (encoding (reader w))) good →
  ¬ well_formed (encoding (reader w)) bad →
  console w = replicate (length good) None ++ con →
  calls w = Ok status :: cs →
  ∃ e, create_line (Raw bad) ∅ w = (Err e, w)
       ∧ attach MyReader_act c w
         = (Err e,
            after_loop c w out1 (mkStream (good ++ bad :: later) fault) rest
              (map (shown (reader w)) good) cs con).
Proof.
  intros Hidle Hp Hgood Hbad Hcon Hk.
  destruct (create_line_not_well_formed bad w Hbad) as (e & He).
  exists e. split; [exact He|].
  rewrite (attach_idle _ _ _ Hidle).
  unfold __setup_connection__, try_finally.
  rewrite (setup_body_spawned _ _ _ _ _ _ Hp). cbn [st_lines st_fault].
  rewrite for_each_app.
  rewrite (for_each_MyReader _ _ _ con); [|exact Hgood|exact Hcon].
  cbn [for_each]. unfold bind at 1.
  rewrite MyReader_act_eq.
  rewrite create_line_default_eq in He |- *. cbn [fst reader encoding] in He |- *.
  injection He as He. rewrite He.
  rewrite detach_eq. cbn [reader connection calls]. rewrite Hk.
  unfold after_loop. cbn [reader objects pending trace calls console
                          blacklist_messages blacklist_monitorcodes encoding].
  rewrite <- !app_assoc. reflexivity.
Qed.

Lemma MyReader_stops_at_bad_line_witness :
  let w := mkWorld (AbstractReader_init [] [] ∅) ∅
                   [Ok (mkStream [] None);
                    Ok (mkStream ([example_raw] ++ short_raw :: [example_raw]) None)]
                   [] [Ok 0%Z] [None; None] in
  connection (reader w) = None
  ∧ pending w
    = Ok (mkStream [] None)
      :: Ok (mkStream ([example_raw] ++ short_raw :: [example_raw]) None) :: []
  ∧ Forall (well_formed (encoding (reader w))) [example_raw]
  ∧ ¬ well_formed (encoding (reader w)) short_raw
  ∧ console w = replicate (length [example_raw]) None ++ [None]
  ∧ calls w = Ok 0%Z :: []
  ∧ ∃ e, create_line (Raw short_raw) ∅ w = (Err e, w)
         ∧ attach MyReader_act 1%positive w
           = (Err e,
              after_loop 1%positive w (mkStream [] None)
                (mkStream ([example_raw] ++ short_raw :: [example_raw]) None) []
                (map (shown (reader w)) [example_raw]) [] [None]).
Proof.
  intros w.
  assert (Hwf : well_formed (encoding (reader w)) example_raw).
  { exists (example_text ++ [0x0A]). split; vm_compute; [reflexivity | lia]. }
  assert (Hbad : ¬ well_formed (encoding (reader w)) short_raw).
  { intros (s & Hs & Hlen). vm_compute in Hs. injection Hs as <-.
    vm_compute in Hlen. lia. }
  split; [reflexivity|]. split; [reflexivity|].
  split; [repeat constructor; exact Hwf|]. split; [exact Hbad|].
  split; [reflexivity|]. split; [reflexivity|].
  apply (MyReader_stops_at_bad_line 1%positive w (mkStream [] None)
           [example_raw] short_raw [example_raw] None [] 0%Z [] [None]);
    [reflexivity | reflexivity | repeat constructor; exact Hwf | exact Hbad
    | reflexivity | reflexivity].
Defined.
